(** * ecommerce-backend: cart workflow, group membership, product images, slugs

  A shallow embedding of the Mongoose models and Express controllers of the
  repository, with the properties its specification states about them.

  Conventions of the embedding.
  - An [ObjectId] is a natural number.  A loaded cart holds the path
    [items.product_id] either as the stored identifiers or, when its query
    populated the path, as the product documents, [null] for a product that
    is gone.  [toString()] gives the hexadecimal string of an identifier
    and the dump of the fields of a populated document, which is the string
    of no identifier; on [null] it throws a [TypeError].
  - A JavaScript [Number] holding a count is a [Z]; one holding money is an
    IEEE 754 binary64 [float] with the arithmetic of the language.  A
    [Date] is the instant in milliseconds, a [Z]; the current instant [now]
    is passed to every operation that reads the clock.
  - A collection is a finite map from [_id] to document, or the list of its
    documents where a query is answered by the first match.
  - A controller is a function of the documents its queries return; it
    yields the HTTP response together with the document as persisted.  A
    method that may throw returns an [option], [None] being the exception;
    the [catch] of the controller answers it with status 500.
  - [save] validates the document and runs the schema's pre-save hook.  The
    documents read from the store satisfy the validators of their schema,
    and so do the values the validators of the routes let through, but for
    [admin_notes]: its route admits 1000 characters, its schema 500.  That
    validator is run where [admin_notes] is assigned. *)

From Stdlib Require Import PrimFloat.
From Stdlib Require Uint63.
From stdpp Require Import base gmap list strings.
From Stdlib Require Import ZArith Lia Ascii DecimalString DecimalNat.

Open Scope Z_scope.

Definition ObjectId := nat.
Definition Date := Z.

(** A JavaScript [Number]. *)
Abbreviation Number := PrimFloat.float.

(** The [Number] of an integer count; exact below 2^53. *)
Definition number_of_Z (z : Z) : Number :=
  match z with
  | Z0 => 0%float
  | Zpos _ => PrimFloat.of_uint63 (Uint63.of_Z z)
  | Zneg p => (- PrimFloat.of_uint63 (Uint63.of_Z (Zpos p)))%float
  end.

(** ** HTTP responses *)

Module Http.

(** The JSON envelope a controller answers with: the status code, the
    [success] flag and the [message] (absent or [null] as [None]). *)
Record Response (M : Type) := mk {
  code : nat;
  success : bool;
  message : option M
}.

Arguments mk {M} _ _ _.
Arguments code {M} _.
Arguments success {M} _.
Arguments message {M} _.

(** [res.status(code).json({ success: false, message })] *)
Definition failure {M : Type} (code' : nat) (m : M) : Response M :=
  {| code := code'; success := false; message := Some m |}.

(** [res.json({ success: true, message, ... })], status 200. *)
Definition ok {M : Type} (m : M) : Response M :=
  {| code := 200; success := true; message := Some m |}.

End Http.

(** ** Slugs (the pre-save hooks of models/Category.js, of Product and Group
    in unnamed/part_006, of Service in unnamed/part_007 and of Blog in
    unnamed/part_008) *)

Module Slug.

(** Display names are strings over the code units 0 to 255 (Latin-1). *)
Definition code (c : ascii) : nat := nat_of_ascii c.

Definition between (lo hi : nat) (c : ascii) : bool :=
  (lo <=? code c)%nat && (code c <=? hi)%nat.

Definition is_upper (c : ascii) : bool := between 65 90 c.
Definition is_lower (c : ascii) : bool := between 97 122 c.
Definition is_digit (c : ascii) : bool := between 48 57 c.

(** The capital letters of Latin-1 beyond ASCII (U+00C0 to U+00DE, without
    the multiplication sign U+00D7). *)
Definition is_upper_latin1 (c : ascii) : bool :=
  between 192 222 c && negb (code c =? 215)%nat.

(** The class [\s] below U+0100: tab, line feed, vertical tab, form feed,
    carriage return, space and no-break space. *)
Definition is_space (c : ascii) : bool :=
  between 9 13 c || (code c =? 32)%nat || (code c =? 160)%nat.

(** The class [[a-zA-Z0-9]]. *)
Definition is_alnum (c : ascii) : bool :=
  is_lower c || is_upper c || is_digit c.

Definition lower_char (c : ascii) : ascii :=
  if is_upper c || is_upper_latin1 c then ascii_of_nat (code c + 32) else c.

(** [String.prototype.toLowerCase] *)
Fixpoint toLowerCase (s : string) : string :=
  match s with
  | EmptyString => EmptyString
  | String c s' => String (lower_char c) (toLowerCase s')
  end.

(** [.replace(/[^a-zA-Z0-9\s]/g, "")] *)
Fixpoint remove_special (s : string) : string :=
  match s with
  | EmptyString => EmptyString
  | String c s' =>
      if is_alnum c || is_space c
      then String c (remove_special s')
      else remove_special s'
  end.

(** [.replace(/\s+/g, "-")]; [in_run] tells that the previous code unit was
    white space, already replaced. *)
Fixpoint hyphenate (in_run : bool) (s : string) : string :=
  match s with
  | EmptyString => EmptyString
  | String c s' =>
      if is_space c
      then if in_run then hyphenate true s'
           else String "-" (hyphenate true s')
      else String c (hyphenate false s')
  end.

Fixpoint trimStart (s : string) : string :=
  match s with
  | EmptyString => EmptyString
  | String c s' => if is_space c then trimStart s' else s
  end.

Fixpoint trimEnd (s : string) : string :=
  match s with
  | EmptyString => EmptyString
  | String c s' =>
      match trimEnd s' with
      | EmptyString => if is_space c then EmptyString else String c EmptyString
      | String _ _ as r => String c r
      end
  end.

(** [String.prototype.trim] *)
Definition trim (s : string) : string := trimEnd (trimStart s).

(** The base slug of a display name, as the five hooks compute it. *)
Definition baseSlug_of (name : string) : string :=
  trim (hyphenate false (remove_special (toLowerCase name))).

(** The setters of the path [slug] ([lowercase: true], [trim: true]),
    applied when the hook assigns [this.slug]. *)
Definition slug_setter (s : string) : string := trim (toLowerCase s).

(** The template literal [`${counter}`]. *)
Definition decimal (n : nat) : string :=
  NilEmpty.string_of_uint (Nat.to_uint n).

(** What the hooks read and write of a document: its identifier, its display
    name ([name], or [title] for Service and Blog) and its slug. *)
Record Doc := mkDoc {
  _id : ObjectId;
  name : string;
  slug : option string
}.

Definition set_slug (s : string) (d : Doc) : Doc :=
  {| _id := _id d; name := name d; slug := Some (slug_setter s) |}.

(** [this.constructor.findOne({ slug, _id: { $ne: this._id } })] over the
    documents of the collection. *)
Definition findOne (coll : list Doc) (slug' : string) (self : ObjectId)
    : option Doc :=
  snd <$> list_find (λ d, slug d = Some slug' ∧ _id d ≠ self) coll.

(** The [while] loop of the hooks of Product, Group, Service and Blog, entered
    with the current [slug] and [counter]; [fuel] bounds the number of
    turns. *)
Fixpoint resolve (fuel : nat) (coll : list Doc) (self : ObjectId)
    (baseSlug slug' : string) (counter : nat) : option string :=
  match findOne coll slug' self with
  | None => Some slug'
  | Some _ =>
      match fuel with
      | O => None
      | S fuel' =>
          resolve fuel' coll self baseSlug
                  (baseSlug +:+ "-" +:+ decimal counter) (S counter)
      end
  end.

(** [productSchema.pre("save")], and word for word the hooks of Group, Service
    and Blog.  [changed] is [this.isModified("name") || this.isNew]; the loop
    is given one turn per document of the collection. *)
Definition pre_save_suffixing (coll : list Doc) (changed : bool) (d : Doc)
    : option Doc :=
  if changed
  then
    let baseSlug := baseSlug_of (name d) in
    match resolve (length coll) coll (_id d) baseSlug baseSlug 1 with
    | Some slug' => Some (set_slug slug' d)
    | None => None
    end
  else Some d.

(** [categorySchema.pre('save')] *)
Definition pre_save_category (changed : bool) (d : Doc) : option Doc :=
  if changed then Some (set_slug (baseSlug_of (name d)) d) else Some d.

Inductive Entity := Category | Product | Group | Service | Blog.

(** The pre-save hook of each entity type. *)
Definition pre_save (e : Entity) (coll : list Doc) (changed : bool) (d : Doc)
    : option Doc :=
  match e with
  | Category => pre_save_category changed d
  | Product | Group | Service | Blog => pre_save_suffixing coll changed d
  end.

(** The slugs the loop tries in turn: the base slug, then the base slug with
    the suffixes "-1", "-2", ... *)
Definition candidate (baseSlug : string) (k : nat) : string :=
  match k with
  | O => baseSlug
  | S _ => baseSlug +:+ "-" +:+ decimal k
  end.

(** A slug is unique for [d] in [coll] when no other document holds it. *)
Definition unique_for (coll : list Doc) (d : Doc) : Prop :=
  ∀ d', d' ∈ coll → _id d' ≠ _id d → slug d' ≠ slug d.

(** The code units of a URL-safe lowercase slug: [a-z], [0-9] and "-". *)
Definition slug_char (c : ascii) : bool :=
  is_lower c || is_digit c || (code c =? 45)%nat.

Fixpoint all_chars (P : ascii → bool) (s : string) : bool :=
  match s with
  | EmptyString => true
  | String c s' => P c && all_chars P s'
  end.

Definition is_hyphen (c : ascii) : bool := (code c =? 45)%nat.

Definition starts_with_hyphen (s : string) : bool :=
  match s with
  | EmptyString => false
  | String c _ => is_hyphen c
  end.

(** No two hyphens follow each other in [s]. *)
Fixpoint no_double_hyphen (s : string) : bool :=
  match s with
  | EmptyString => true
  | String c s' =>
      negb (is_hyphen c && starts_with_hyphen s') && no_double_hyphen s'
  end.

End Slug.

(** ** Product documents (models/Product.js, in unnamed/part_006) *)

Module Product.

(** A hydrated product document.  [is_active] and [expiration_date] are
    [None] when the path is [undefined], which is what a hydrated document
    holds for a path left out of the query's projection; [expiration_date]
    is the instant [new Date(this.expiration_date)] denotes. *)
Record t := mk {
  name : string;
  price : Number;
  quantity : Z;
  is_active : option bool;
  expiration_date : option Date
}.

(** [productSchema.virtual("is_expired")]: no date means not expired,
    otherwise [new Date() > expirationDate]. *)
Definition is_expired (now : Date) (p : t) : bool :=
  match expiration_date p with
  | None => false
  | Some expirationDate => now >? expirationDate
  end.

(** Truthiness of [product.is_active]; [undefined] is falsy. *)
Definition active (p : t) : bool :=
  match is_active p with
  | Some b => b
  | None => false
  end.

(** The projection a query applies: [select fields] keeps the listed paths.
    Every projection in the controllers lists name, price and quantity. *)
Definition select (fields : list string) (p : t) : t :=
  {| name := name p;
     price := price p;
     quantity := quantity p;
     is_active :=
       if bool_decide ("is_active" ∈ fields) then is_active p else None;
     expiration_date :=
       if bool_decide ("expiration_date" ∈ fields)
       then expiration_date p else None |}.

(** [Product.findById]. *)
Definition findById (db : gmap ObjectId t) (id : ObjectId) : option t :=
  db !! id.

(** [.populate("items.product_id", fields)] at one reference: the referenced
    document under the projection, or [None] (null) when it is gone. *)
Definition populate (fields : list string) (db : gmap ObjectId t)
    (id : ObjectId) : option t :=
  select fields <$> db !! id.

Definition set_quantity (q : Z) (p : t) : t :=
  {| name := name p; price := price p; quantity := q;
     is_active := is_active p; expiration_date := expiration_date p |}.

(** [productSchema.methods.isInStock] *)
Definition isInStock (p : t) : bool := quantity p >? 0.

(** [productSchema.methods.reduceQuantity]; [None] is the thrown
    [Error("Insufficient quantity")].  The name is untouched, so the
    pre-save hook leaves the document as it is. *)
Definition reduceQuantity (amount : Z) (p : t) : option t :=
  if quantity p >=? amount
  then Some (set_quantity (quantity p - amount) p)
  else None.

(** [productSchema.methods.addQuantity] *)
Definition addQuantity (amount : Z) (p : t) : t :=
  set_quantity (quantity p + amount) p.

End Product.

(** ** Cart documents (models/Cart.js, in unnamed/part_005) *)

Module Cart.

Inductive Status := active | pending | approved | rejected | cancelled.

#[global] Instance Status_eq_dec : EqDecision Status.
Proof. solve_decision. Defined.

(** A line of a cart; [product_id] is the identifier the line is stored
    with. *)
Record Item := mkItem {
  product_id : ObjectId;
  quantity : Z;
  price_at_time : Number;
  added_at : Date
}.

Record t := mk {
  user_id : ObjectId;
  items : list Item;
  status : Status;
  total_amount : Number;
  total_items : Z;
  notes : option string;
  admin_notes : option string;
  approved_by : option ObjectId;
  approved_at : option Date;
  rejected_by : option ObjectId;
  rejected_at : option Date;
  submitted_at : option Date
}.

(** How a loaded cart holds the path [items.product_id]: as the identifiers
    it is stored with, or, after [.populate("items.product_id", ...)] over
    the products [db], as the product documents, [null] for a line whose
    product is not in [db]. *)
Inductive Loaded :=
| stored
| populated (db : gmap ObjectId Product.t).

(** [new Cart({ user_id: userId })] with the schema defaults. *)
Definition new (userId : ObjectId) : t :=
  {| user_id := userId; items := []; status := active;
     total_amount := 0%float; total_items := 0;
     notes := None; admin_notes := None;
     approved_by := None; approved_at := None;
     rejected_by := None; rejected_at := None; submitted_at := None |}.

Definition set_items (l : list Item) (c : t) : t :=
  {| user_id := user_id c; items := l; status := status c;
     total_amount := total_amount c; total_items := total_items c;
     notes := notes c; admin_notes := admin_notes c;
     approved_by := approved_by c; approved_at := approved_at c;
     rejected_by := rejected_by c; rejected_at := rejected_at c;
     submitted_at := submitted_at c |}.

Definition set_totals (amount : Number) (count : Z) (c : t) : t :=
  {| user_id := user_id c; items := items c; status := status c;
     total_amount := amount; total_items := count;
     notes := notes c; admin_notes := admin_notes c;
     approved_by := approved_by c; approved_at := approved_at c;
     rejected_by := rejected_by c; rejected_at := rejected_at c;
     submitted_at := submitted_at c |}.

Definition set_quantity (q : Z) (i : Item) : Item :=
  {| product_id := product_id i; quantity := q;
     price_at_time := price_at_time i; added_at := added_at i |}.

(** [cartSchema.pre("save")]: both totals are reduced from the items, left
    to right from 0; without items both are 0. *)
Definition pre_save (c : t) : t :=
  match items c with
  | [] => set_totals 0%float 0 c
  | _ :: _ =>
      set_totals
        (fold_left
           (λ total item,
              (total + price_at_time item * number_of_Z (quantity item))%float)
           (items c) 0%float)
        (fold_left (λ total item, total + quantity item) (items c) 0)
        c
  end.

(** [this.save()] of a document the validators accept: the document as
    persisted. *)
Definition save (c : t) : t := pre_save c.

(** [item.product_id.toString() === productId.toString()], where
    [productId] is an identifier or its hexadecimal string.  A stored
    reference prints as its hexadecimal string; a populated product prints
    as the dump of its fields, which no identifier prints as; on the [null]
    of a product that is gone [toString] throws. *)
Definition same_product (how : Loaded) (productId : ObjectId) (item : Item)
    : option bool :=
  match how with
  | stored => Some (bool_decide (product_id item = productId))
  | populated db =>
      match db !! product_id item with
      | Some _ => Some false
      | None => None
      end
  end.

(** [items.findIndex((item) => item.product_id.toString() ===
    productId.toString())]; [Some None] is the index -1. *)
Fixpoint findIndex (how : Loaded) (productId : ObjectId) (l : list Item)
    : option (option nat) :=
  match l with
  | [] => Some None
  | item :: rest =>
      match same_product how productId item with
      | None => None
      | Some true => Some (Some 0%nat)
      | Some false =>
          index ← findIndex how productId rest;
          Some (fmap (M := option) S index)
      end
  end.

(** [items.find(...)] with the same test; [Some None] is [undefined]. *)
Fixpoint find (how : Loaded) (productId : ObjectId) (l : list Item)
    : option (option Item) :=
  match l with
  | [] => Some None
  | item :: rest =>
      match same_product how productId item with
      | None => None
      | Some true => Some (Some item)
      | Some false => find how productId rest
      end
  end.

(** [items.filter((item) => item.product_id.toString() !==
    productId.toString())] *)
Fixpoint filter_others (how : Loaded) (productId : ObjectId) (l : list Item)
    : option (list Item) :=
  match l with
  | [] => Some []
  | item :: rest =>
      match same_product how productId item with
      | None => None
      | Some same =>
          kept ← filter_others how productId rest;
          Some (if same then kept else item :: kept)
      end
  end.

(** [cartSchema.methods.addItem] on a cart loaded as [how]; the pushed line
    takes the default [Date.now] of [added_at]. *)
Definition addItem (how : Loaded) (now : Date) (productId : ObjectId)
    (qty : Z) (priceAtTime : Number) (c : t) : option t :=
  existingItemIndex ← findIndex how productId (items c);
  match existingItemIndex with
  | Some i =>
      Some (save (set_items
                    (alter (λ item, set_quantity (quantity item + qty) item)
                           i (items c)) c))
  | None =>
      Some (save (set_items
                    (items c ++
                     [{| product_id := productId; quantity := qty;
                         price_at_time := priceAtTime; added_at := now |}])
                    c))
  end.

(** [cartSchema.methods.removeItem] *)
Definition removeItem (how : Loaded) (productId : ObjectId) (c : t)
    : option t :=
  kept ← filter_others how productId (items c);
  Some (save (set_items kept c)).

(** [cartSchema.methods.updateItemQuantity] *)
Definition updateItemQuantity (how : Loaded) (productId : ObjectId)
    (newQuantity : Z) (c : t) : option t :=
  itemIndex ← findIndex how productId (items c);
  match itemIndex with
  | Some i =>
      if newQuantity <=? 0
      then Some (save (set_items (delete i (items c)) c))
      else Some (save (set_items
                         (alter (set_quantity newQuantity) i (items c)) c))
  | None => Some (save c)
  end.

(** [cartSchema.methods.clearCart] *)
Definition clearCart (c : t) : t := save (set_items [] c).

(** [cartSchema.methods.submitForApproval]; the notes reach it trimmed and
    capped at 500 characters by the route, as the schema wants them. *)
Definition submitForApproval (now : Date) (notes' : string) (c : t) : t :=
  save {| user_id := user_id c; items := items c; status := pending;
          total_amount := total_amount c; total_items := total_items c;
          notes := Some notes'; admin_notes := admin_notes c;
          approved_by := approved_by c; approved_at := approved_at c;
          rejected_by := rejected_by c; rejected_at := rejected_at c;
          submitted_at := Some now |}.

(** The setter of the path [admin_notes] ([trim: true]):
    [String.prototype.trim], on notes over the code units 0 to 255. *)
Definition admin_notes_setter (adminNotes : string) : string :=
  Slug.trim adminNotes.

(** The validator of the path [admin_notes]
    ([maxLength: 500, "Admin notes cannot exceed 500 characters"]). *)
Definition admin_notes_valid (adminNotes : string) : bool :=
  bool_decide (String.length adminNotes ≤ 500)%nat.

(** [cartSchema.methods.approveCart]; [None] is the [ValidationError] of
    [this.save()]. *)
Definition approveCart (now : Date) (adminId : ObjectId)
    (adminNotes : string) (c : t) : option t :=
  if admin_notes_valid (admin_notes_setter adminNotes)
  then
    Some (save {| user_id := user_id c; items := items c;
                  status := approved;
                  total_amount := total_amount c;
                  total_items := total_items c;
                  notes := notes c;
                  admin_notes := Some (admin_notes_setter adminNotes);
                  approved_by := Some adminId; approved_at := Some now;
                  rejected_by := rejected_by c;
                  rejected_at := rejected_at c;
                  submitted_at := submitted_at c |})
  else None.

(** [cartSchema.methods.rejectCart]; [None] is the [ValidationError] of
    [this.save()]. *)
Definition rejectCart (now : Date) (adminId : ObjectId)
    (adminNotes : string) (c : t) : option t :=
  if admin_notes_valid (admin_notes_setter adminNotes)
  then
    Some (save {| user_id := user_id c; items := items c;
                  status := rejected;
                  total_amount := total_amount c;
                  total_items := total_items c;
                  notes := notes c;
                  admin_notes := Some (admin_notes_setter adminNotes);
                  approved_by := approved_by c;
                  approved_at := approved_at c;
                  rejected_by := Some adminId; rejected_at := Some now;
                  submitted_at := submitted_at c |})
  else None.

(** [cartSchema.methods.cancelCart] *)
Definition cancelCart (c : t) : t :=
  save {| user_id := user_id c; items := items c; status := cancelled;
          total_amount := total_amount c; total_items := total_items c;
          notes := notes c; admin_notes := admin_notes c;
          approved_by := approved_by c; approved_at := approved_at c;
          rejected_by := rejected_by c; rejected_at := rejected_at c;
          submitted_at := submitted_at c |}.

(** [cartSchema.methods.canBeModified] *)
Definition canBeModified (c : t) : bool := bool_decide (status c = active).

(** [cartSchema.methods.canBeProcessed] *)
Definition canBeProcessed (c : t) : bool := bool_decide (status c = pending).

(** The persisting mutations of a cart, one per schema method. *)
Inductive Mutation :=
| AddItem (productId : ObjectId) (qty : Z) (priceAtTime : Number)
| UpdateItemQuantity (productId : ObjectId) (newQuantity : Z)
| RemoveItem (productId : ObjectId)
| ClearCart
| SubmitForApproval (notes' : string)
| ApproveCart (adminId : ObjectId) (adminNotes : string)
| RejectCart (adminId : ObjectId) (adminNotes : string)
| CancelCart.

(** The method of a mutation, run on a cart loaded as [how]; [None] when
    the method throws and nothing is persisted. *)
Definition mutate (how : Loaded) (now : Date) (m : Mutation) (c : t)
    : option t :=
  match m with
  | AddItem productId qty priceAtTime =>
      addItem how now productId qty priceAtTime c
  | UpdateItemQuantity productId newQuantity =>
      updateItemQuantity how productId newQuantity c
  | RemoveItem productId => removeItem how productId c
  | ClearCart => Some (clearCart c)
  | SubmitForApproval notes' => Some (submitForApproval now notes' c)
  | ApproveCart adminId adminNotes => approveCart now adminId adminNotes c
  | RejectCart adminId adminNotes => rejectCart now adminId adminNotes c
  | CancelCart => Some (cancelCart c)
  end.

(** The sums the specification writes as Σ.  Quantities are integers; the
    amounts are [Number]s, summed in the order of the items:
    Σ of no item is 0, Σ of items up to a last one is Σ of the items before
    it, plus the amount of the last. *)
Fixpoint sum_quantity (l : list Item) : Z :=
  match l with
  | [] => 0
  | item :: l' => quantity item + sum_quantity l'
  end.

Definition amount (item : Item) : Number :=
  (price_at_time item * number_of_Z (quantity item))%float.

Fixpoint sum_amount_upto (last_first : list Item) : Number :=
  match last_first with
  | [] => 0%float
  | item :: before => (sum_amount_upto before + amount item)%float
  end.

Definition sum_amount (l : list Item) : Number := sum_amount_upto (rev l).

(** The totals of a cart agree with its items. *)
Definition totals_ok (c : t) : Prop :=
  total_items c = sum_quantity (items c) ∧
  total_amount c = sum_amount (items c).

(** The products of the lines of a cart, in order. *)
Definition product_ids (c : t) : list ObjectId := product_id <$> items c.

(** Every line of the cart references a product of [db]: populating the
    cart over [db] leaves no [null]. *)
Definition no_dangling (db : gmap ObjectId Product.t) (c : t) : Prop :=
  Forall (λ item, is_Some (db !! product_id item)) (items c).

(** The moves of [status] the controllers make: submission, approval,
    rejection, and cancellation from any status but [approved] and
    [cancelled]. *)
Inductive transition : Status → Status → Prop :=
| submit_move : transition active pending
| approve_move : transition pending approved
| reject_move : transition pending rejected
| cancel_move (s : Status) :
    s ≠ approved → s ≠ cancelled → transition s cancelled.

(** A controller keeps the status of a cart or moves it by [transition]. *)
Definition keeps_or_moves (before : t) (after : option t) : Prop :=
  ∃ c', after = Some c' ∧
        (status c' = status before ∨ transition (status before) (status c')).

End Cart.

(** ** Cart controllers (controllers/productController.js, from line 1115) *)

Module CartController.

(** The message of a response; the constructor carries what the template
    literal interpolates. *)
Inductive Message :=
| ProductNotFound            (* "Product not found" *)
| ProductNotActive           (* "Product is not active" *)
| ProductExpired             (* "Product has expired" *)
| OnlyInStock (stock : Z)    (* "Only ${stock} items available in stock" *)
| CannotAdd (qty more : Z)
    (* "Cannot add ${qty} items. Only ${more} more items available" *)
| ItemAdded                  (* "Item added to cart successfully" *)
| CartNotFound               (* "Cart not found" *)
| CannotBeModified   (* "Cart cannot be modified in its current status" *)
| ItemRemoved                (* "Item removed from cart" *)
| ItemUpdated                (* "Cart item updated successfully" *)
| ItemRemovedSuccessfully    (* "Item removed from cart successfully" *)
| CartCleared                (* "Cart cleared successfully" *)
| CannotSubmitEmpty          (* "Cannot submit empty cart" *)
| CannotBeSubmitted  (* "Cart cannot be submitted in its current status" *)
| ProductNoLongerAvailable (product_id : ObjectId)
    (* "Product ${item.product_id} is no longer available" *)
| NoLongerAvailable (product : option string)
    (* "Product ${product ? product.name : 'Unknown'} is no longer available" *)
| InsufficientStock (product : string) (stock : Z)
    (* "Insufficient stock for product ${name}. Only ${stock} available" *)
| CartSubmitted              (* "Cart submitted for approval successfully" *)
| OnlyOwnCart                (* "You can only cancel your own cart" *)
| AlreadyCancelled           (* "Cart is already cancelled" *)
| CannotCancelApproved       (* "Cannot cancel approved cart" *)
| CartCancelled              (* "Cart cancelled successfully" *)
| CannotBeProcessed  (* "Cart cannot be processed in its current status" *)
| CartApproved               (* "Cart approved successfully" *)
| CartRejected               (* "Cart rejected successfully" *)
| CartUpdated
    (* "Cart updated due to product availability changes" *)
| FailedToAdd                (* "Failed to add item to cart" *)
| FailedToUpdate             (* "Failed to update cart item" *)
| FailedToRemove             (* "Failed to remove item from cart" *)
| FailedToApprove            (* "Failed to approve cart" *)
| FailedToReject             (* "Failed to reject cart" *).

Definition Response := Http.Response Message.

Definition failure : nat → Message → Response := Http.failure.

Definition ok : Message → Response := Http.ok.

(** The projection of [Cart.getUserActiveCart] on [items.product_id]. *)
Definition active_cart_fields : list string :=
  ["name"; "price"; "quantity"; "is_active"; "expiration_date"].

(** The projection of the controller [approveCart] on [items.product_id]. *)
Definition approve_fields : list string := ["name"; "price"; "quantity"].

(** One turn of the loop of [getUserCart] over [cart.items], on the pair
    [(validItems, hasChanges)]. *)
Definition revalidate (now : Date) (db : gmap ObjectId Product.t)
    (acc : list Cart.Item * bool) (item : Cart.Item) : list Cart.Item * bool :=
  let '(validItems, hasChanges) := acc in
  match Product.populate active_cart_fields db (Cart.product_id item) with
  | Some product =>
      if Product.active product && negb (Product.is_expired now product)
      then
        if Cart.quantity item <=? Product.quantity product
        then (validItems ++ [item], hasChanges)
        else if Product.quantity product >? 0
        then (validItems ++
                [Cart.set_quantity (Product.quantity product) item], true)
        else (validItems, true)
      else (validItems, true)
  | None => (validItems, true)
  end.

(** [getUserCart]; [found] is the result of [Cart.getUserActiveCart]. *)
Definition getUserCart (now : Date) (db : gmap ObjectId Product.t)
    (userId : ObjectId) (found : option Cart.t) : Response * Cart.t :=
  let cart :=
    match found with
    | Some c => c
    | None => Cart.save (Cart.new userId)
    end in
  let '(validItems, hasChanges) :=
    fold_left (revalidate now db) (Cart.items cart) ([], false) in
  let cart' :=
    if hasChanges then Cart.save (Cart.set_items validItems cart) else cart in
  ({| Http.code := 200; Http.success := true;
      Http.message := if hasChanges then Some CartUpdated else None |}, cart').

(** The cart [Cart.getUserActiveCart] returns is populated over the products
    of the moment. *)
Definition active_cart (db : gmap ObjectId Product.t) : Cart.Loaded :=
  Cart.populated db.

(** [existingItem ? existingItem.quantity : 0], where [existingItem] is
    [cart.items.find((item) => item.product_id.toString() ===
    product_id.toString())]. *)
Definition currentQuantityInCart (how : Cart.Loaded) (product_id : ObjectId)
    (cart : Cart.t) : option Z :=
  existingItem ← Cart.find how product_id (Cart.items cart);
  Some match existingItem with
       | Some item => Cart.quantity item
       | None => 0
       end.

(** [addToCart]; [body_quantity] is [req.body.quantity], 1 when absent.
    The cart is the populated active cart, or a new one. *)
Definition addToCart (now : Date) (db : gmap ObjectId Product.t)
    (userId product_id : ObjectId) (body_quantity : option Z)
    (found : option Cart.t) : Response * option Cart.t :=
  let quantity := default 1 body_quantity in
  match Product.findById db product_id with
  | None => (failure 404 ProductNotFound, found)
  | Some product =>
      if negb (Product.active product)
      then (failure 400 ProductNotActive, found)
      else if Product.is_expired now product
      then (failure 400 ProductExpired, found)
      else if Product.quantity product <? quantity
      then (failure 400 (OnlyInStock (Product.quantity product)), found)
      else
        let '(how, cart) :=
          match found with
          | Some c => (active_cart db, c)
          | None => (Cart.stored, Cart.new userId)
          end in
        match currentQuantityInCart how product_id cart with
        | None => (failure 500 FailedToAdd, found)
        | Some currentQuantity =>
            let totalRequestedQuantity := currentQuantity + quantity in
            if totalRequestedQuantity >? Product.quantity product
            then (failure 400
                    (CannotAdd quantity
                       (Product.quantity product - currentQuantity)),
                  found)
            else
              match Cart.addItem how now product_id quantity
                      (Product.price product) cart with
              | Some cart' => (ok ItemAdded, Some cart')
              | None => (failure 500 FailedToAdd, found)
              end
        end
  end.

(** [updateCartItem] *)
Definition updateCartItem (db : gmap ObjectId Product.t)
    (product_id : ObjectId) (quantity : Z) (found : option Cart.t)
    : Response * option Cart.t :=
  match found with
  | None => (failure 404 CartNotFound, found)
  | Some cart =>
      if negb (Cart.canBeModified cart)
      then (failure 400 CannotBeModified, found)
      else if quantity <=? 0
      then
        match Cart.removeItem (active_cart db) product_id cart with
        | Some cart' => (ok ItemRemoved, Some cart')
        | None => (failure 500 FailedToUpdate, found)
        end
      else
        match Product.findById db product_id with
        | None => (failure 404 ProductNotFound, found)
        | Some product =>
            if quantity >? Product.quantity product
            then (failure 400 (OnlyInStock (Product.quantity product)), found)
            else
              match Cart.updateItemQuantity (active_cart db) product_id
                      quantity cart with
              | Some cart' => (ok ItemUpdated, Some cart')
              | None => (failure 500 FailedToUpdate, found)
              end
        end
  end.

(** [removeFromCart] *)
Definition removeFromCart (db : gmap ObjectId Product.t)
    (product_id : ObjectId) (found : option Cart.t)
    : Response * option Cart.t :=
  match found with
  | None => (failure 404 CartNotFound, found)
  | Some cart =>
      if negb (Cart.canBeModified cart)
      then (failure 400 CannotBeModified, found)
      else
        match Cart.removeItem (active_cart db) product_id cart with
        | Some cart' => (ok ItemRemovedSuccessfully, Some cart')
        | None => (failure 500 FailedToRemove, found)
        end
  end.

(** [clearCart] *)
Definition clearCart (found : option Cart.t) : Response * option Cart.t :=
  match found with
  | None => (failure 404 CartNotFound, found)
  | Some cart =>
      if negb (Cart.canBeModified cart)
      then (failure 400 CannotBeModified, found)
      else (ok CartCleared, Some (Cart.clearCart cart))
  end.

(** The validation loop of [submitCart]: the response of the first item that
    fails, [None] when the loop runs to its end. *)
Fixpoint submit_check (now : Date) (db : gmap ObjectId Product.t)
    (l : list Cart.Item) : option Response :=
  match l with
  | [] => None
  | item :: rest =>
      match Product.findById db (Cart.product_id item) with
      | None =>
          Some (failure 400 (ProductNoLongerAvailable (Cart.product_id item)))
      | Some product =>
          if negb (Product.active product) || Product.is_expired now product
          then Some (failure 400
                       (ProductNoLongerAvailable (Cart.product_id item)))
          else if Cart.quantity item >? Product.quantity product
          then Some (failure 400
                       (InsufficientStock (Product.name product)
                          (Product.quantity product)))
          else submit_check now db rest
      end
  end.

(** [submitCart]; [body_notes] is [req.body.notes], the empty string when
    absent. *)
Definition submitCart (now : Date) (db : gmap ObjectId Product.t)
    (body_notes : option string) (found : option Cart.t)
    : Response * option Cart.t :=
  let notes := default "" body_notes in
  match found with
  | None => (failure 404 CartNotFound, found)
  | Some cart =>
      if bool_decide (length (Cart.items cart) = 0%nat)
      then (failure 400 CannotSubmitEmpty, found)
      else if negb (Cart.canBeModified cart)
      then (failure 400 CannotBeSubmitted, found)
      else
        match submit_check now db (Cart.items cart) with
        | Some response => (response, found)
        | None =>
            (ok CartSubmitted, Some (Cart.submitForApproval now notes cart))
        end
  end.

(** [cancelCart]; [found] is the result of [Cart.findById(cart_id)]. *)
Definition cancelCart (userId : ObjectId) (found : option Cart.t)
    : Response * option Cart.t :=
  match found with
  | None => (failure 404 CartNotFound, found)
  | Some cart =>
      if bool_decide (Cart.user_id cart ≠ userId)
      then (failure 403 OnlyOwnCart, found)
      else if bool_decide (Cart.status cart = Cart.cancelled)
      then (failure 400 AlreadyCancelled, found)
      else if bool_decide (Cart.status cart = Cart.approved)
      then (failure 400 CannotCancelApproved, found)
      else (ok CartCancelled, Some (Cart.cancelCart cart))
  end.

(** The validation loop of the controller [approveCart], over the items as
    populated with [approve_fields]. *)
Fixpoint approve_check (now : Date) (db : gmap ObjectId Product.t)
    (l : list Cart.Item) : option Response :=
  match l with
  | [] => None
  | item :: rest =>
      match Product.populate approve_fields db (Cart.product_id item) with
      | None => Some (failure 400 (NoLongerAvailable None))
      | Some product =>
          if negb (Product.active product) || Product.is_expired now product
          then Some (failure 400
                       (NoLongerAvailable (Some (Product.name product))))
          else if Cart.quantity item >? Product.quantity product
          then Some (failure 400
                       (InsufficientStock (Product.name product)
                          (Product.quantity product)))
          else approve_check now db rest
      end
  end.

(** [approveCart]; [found] is the result of [Cart.findById(cart_id)],
    [body_admin_notes] is [req.body.admin_notes], the empty string when
    absent. *)
Definition approveCart (now : Date) (db : gmap ObjectId Product.t)
    (adminId : ObjectId) (body_admin_notes : option string)
    (found : option Cart.t) : Response * option Cart.t :=
  let admin_notes := default "" body_admin_notes in
  match found with
  | None => (failure 404 CartNotFound, found)
  | Some cart =>
      if negb (Cart.canBeProcessed cart)
      then (failure 400 CannotBeProcessed, found)
      else
        match approve_check now db (Cart.items cart) with
        | Some response => (response, found)
        | None =>
            match Cart.approveCart now adminId admin_notes cart with
            | Some cart' => (ok CartApproved, Some cart')
            | None => (failure 500 FailedToApprove, found)
            end
        end
  end.

(** [rejectCart] *)
Definition rejectCart (now : Date) (adminId : ObjectId)
    (body_admin_notes : option string) (found : option Cart.t)
    : Response * option Cart.t :=
  let admin_notes := default "" body_admin_notes in
  match found with
  | None => (failure 404 CartNotFound, found)
  | Some cart =>
      if negb (Cart.canBeProcessed cart)
      then (failure 400 CannotBeProcessed, found)
      else
        match Cart.rejectCart now adminId admin_notes cart with
        | Some cart' => (ok CartRejected, Some cart')
        | None => (failure 500 FailedToReject, found)
        end
  end.

(** A line is purchasable when its product exists, is active, has not
    expired and has the line's quantity in stock. *)
Definition purchasable (now : Date) (db : gmap ObjectId Product.t)
    (item : Cart.Item) : Prop :=
  ∃ p, db !! Cart.product_id item = Some p ∧
       Product.is_active p = Some true ∧
       Product.is_expired now p = false ∧
       Cart.quantity item ≤ Product.quantity p.

End CartController.

(** ** Groups and join requests (models/Group.js in unnamed/part_006,
    controllers/groupController.js) *)

Module Group.

(** The enumeration of [approval_status] and of a join record's [status]. *)
Inductive Status := pending | approved | rejected.

#[global] Instance Status_eq_dec : EqDecision Status.
Proof. solve_decision. Defined.

Inductive Role := member | admin.

(** An element of [joined_users]. *)
Record Join := mkJoin {
  user_id : ObjectId;
  joined_at : Date;
  status : Status;
  role : Role
}.

Record t := mk {
  name : string;
  is_active : bool;
  is_private : bool;
  service_id : ObjectId;
  created_by : ObjectId;
  group_admin : ObjectId;
  members_count : Z;
  joined_users : list Join;
  approval_status : Status
}.

Definition set_status (s : Status) (j : Join) : Join :=
  {| user_id := user_id j; joined_at := joined_at j; status := s;
     role := role j |}.

Definition set_joined_users (l : list Join) (g : t) : t :=
  {| name := name g; is_active := is_active g; is_private := is_private g;
     service_id := service_id g; created_by := created_by g;
     group_admin := group_admin g; members_count := members_count g;
     joined_users := l; approval_status := approval_status g |}.

Definition set_members_count (n : Z) (g : t) : t :=
  {| name := name g; is_active := is_active g; is_private := is_private g;
     service_id := service_id g; created_by := created_by g;
     group_admin := group_admin g; members_count := n;
     joined_users := joined_users g; approval_status := approval_status g |}.

(** [group.joined_users.filter((join) => join.status === "approved").length] *)
Definition approved_count (g : t) : Z :=
  Z.of_nat (length (filter (λ join, status join = approved) (joined_users g))).

(** [group.save()]: the name is untouched by the join workflow, so the
    pre-save hook leaves the slug alone; the post-save hook writes to the
    owning service only. *)
Definition save (g : t) : t := g.

Inductive Message :=
| GroupNotFound          (* "Group not found" *)
| NotActiveOrApproved    (* "Group is not active or not approved" *)
| AlreadyJoined (s : Status)
    (* "You have already requested to join / joined / been rejected from
       this group" *)
| JoinRequestSubmitted
    (* "Join request submitted successfully. Waiting for group admin
       approval." *)
| JoinedGroup            (* "Successfully joined the group!" *)
| NotAuthorized          (* "Not authorized. Only group admin can ..." *)
| JoinRequestNotFound    (* "Join request not found" *)
| AlreadyApproved        (* "User is already approved" *)
| UserApproved           (* "User approved successfully" *)
| UserRejected           (* "User rejected successfully" *).

Definition Response := Http.Response Message.

(** [joinGroup]; [found] is the result of [Group.findById(groupId)]. *)
Definition joinGroup (now : Date) (userId : ObjectId) (found : option t)
    : Response * option t :=
  match found with
  | None => (Http.failure 404 GroupNotFound, found)
  | Some group =>
      if negb (is_active group)
         || bool_decide (approval_status group ≠ approved)
      then (Http.failure 400 NotActiveOrApproved, found)
      else
        match list_find (λ join, user_id join = userId)
                        (joined_users group) with
        | Some (_, existingJoin) =>
            (Http.failure 400 (AlreadyJoined (status existingJoin)), found)
        | None =>
            let joinStatus := if is_private group then pending else approved in
            let group1 :=
              set_joined_users
                (joined_users group ++
                 [{| user_id := userId; joined_at := now;
                     status := joinStatus; role := member |}]) group in
            let group2 :=
              if bool_decide (joinStatus = approved)
              then set_members_count (approved_count group1) group1
              else group1 in
            (Http.ok (if is_private group
                      then JoinRequestSubmitted else JoinedGroup),
             Some (save group2))
        end
  end.

(** [approveUserJoin] *)
Definition approveUserJoin (currentUserId userId : ObjectId)
    (found : option t) : Response * option t :=
  match found with
  | None => (Http.failure 404 GroupNotFound, found)
  | Some group =>
      if bool_decide (group_admin group ≠ currentUserId)
      then (Http.failure 403 NotAuthorized, found)
      else
        match list_find (λ join, user_id join = userId)
                        (joined_users group) with
        | None => (Http.failure 404 JoinRequestNotFound, found)
        | Some (index, joinRequest) =>
            if bool_decide (status joinRequest = approved)
            then (Http.failure 400 AlreadyApproved, found)
            else
              let group1 :=
                set_joined_users
                  (alter (set_status approved) index (joined_users group))
                  group in
              let group2 := set_members_count (approved_count group1) group1 in
              (Http.ok UserApproved, Some (save group2))
        end
  end.

(** [rejectUserJoin] *)
Definition rejectUserJoin (currentUserId userId : ObjectId)
    (found : option t) : Response * option t :=
  match found with
  | None => (Http.failure 404 GroupNotFound, found)
  | Some group =>
      if bool_decide (group_admin group ≠ currentUserId)
      then (Http.failure 403 NotAuthorized, found)
      else
        match list_find (λ join, user_id join = userId)
                        (joined_users group) with
        | None => (Http.failure 404 JoinRequestNotFound, found)
        | Some (index, _) =>
            let group1 :=
              set_joined_users
                (alter (set_status rejected) index (joined_users group))
                group in
            (Http.ok UserRejected, Some (save group1))
        end
  end.

(** The invariant of the specification: the counter is the number of
    approved join records. *)
Definition count_ok (g : t) : Prop := members_count g = approved_count g.

(** [groupSchema.methods.updateMembersCount] *)
Definition updateMembersCount (g : t) : t :=
  save (set_members_count (approved_count g) g).

(** [groupSchema.methods.hasMembers] *)
Definition hasMembers (g : t) : bool := members_count g >? 0.

(** [groupSchema.methods.isMember] *)
Definition isMember (userId : ObjectId) (g : t) : bool :=
  existsb
    (λ user, bool_decide (user_id user = userId)
             && bool_decide (status user = approved))
    (joined_users g).

(** The users of the join records of a group, in order. *)
Definition member_ids (g : t) : list ObjectId := user_id <$> joined_users g.

End Group.

(** ** Product images (models/ProductImage.js) *)

Module ProductImage.

Record t := mk {
  product_id : ObjectId;
  image_url : string;
  image_public_id : string;
  is_active : bool;
  is_primary : bool;
  order : Z
}.

(** The update document [{ is_primary: b }] applied to one image. *)
Definition set_is_primary (b : bool) (img : t) : t :=
  {| product_id := product_id img; image_url := image_url img;
     image_public_id := image_public_id img; is_active := is_active img;
     is_primary := b; order := order img |}.

(** [this.updateMany({ product_id: productId }, { is_primary: false })] *)
Definition clear_primary (productId : ObjectId) (images : gmap ObjectId t)
    : gmap ObjectId t :=
  (λ img, if bool_decide (product_id img = productId)
          then set_is_primary false img else img) <$> images.

(** [productImageSchema.statics.setPrimaryImage]: the collection after the
    two writes and the document [findByIdAndUpdate] returns ([new: true]). *)
Definition setPrimaryImage (imageId productId : ObjectId)
    (images : gmap ObjectId t) : gmap ObjectId t * option t :=
  let images1 := clear_primary productId images in
  let images2 := alter (set_is_primary true) imageId images1 in
  (images2, images2 !! imageId).

(** The images of a product that carry the primary flag. *)
Definition primary_of (productId : ObjectId) (images : gmap ObjectId t)
    : gmap ObjectId t :=
  filter (λ kv, product_id kv.2 = productId ∧ is_primary kv.2 = true) images.

Inductive Message :=
| ProductNotFound     (* "Product not found" *)
| ImageNotFound       (* "Image not found" *)
| InactiveImage       (* "Cannot set inactive image as primary" *)
| PrimaryImageSet     (* "Primary image set successfully" *).

(** The controller [setPrimaryImage] of controllers/productController.js. *)
Definition setPrimaryImage_controller (products : gmap ObjectId Product.t)
    (product_id' image_id : ObjectId) (images : gmap ObjectId t)
    : Http.Response Message * gmap ObjectId t :=
  match Product.findById products product_id' with
  | None => (Http.failure 404 ProductNotFound, images)
  | Some _ =>
      match images !! image_id with
      | Some image =>
          if bool_decide (product_id image = product_id')
          then
            if negb (is_active image)
            then (Http.failure 400 InactiveImage, images)
            else (Http.ok PrimaryImageSet,
                  (setPrimaryImage image_id product_id' images).1)
          else (Http.failure 404 ImageNotFound, images)
      | None => (Http.failure 404 ImageNotFound, images)
      end
  end.

End ProductImage.

(** ** Saving and updating a product image (models/ProductImage.js,
    controllers/productController.js) *)

Module ProductImageController.

(** [productImageSchema.pre('save')] followed by the write of the document
    [img] under [image_id]; [modified] is [this.isModified('is_primary')]. *)
Definition save (image_id : ObjectId) (modified : bool)
    (img : ProductImage.t) (images : gmap ObjectId ProductImage.t)
    : gmap ObjectId ProductImage.t :=
  let images1 :=
    if ProductImage.is_primary img && modified
    then map_imap
           (λ i other,
              Some (if bool_decide
                         (ProductImage.product_id other
                          = ProductImage.product_id img ∧ i ≠ image_id)
                    then ProductImage.set_is_primary false other
                    else other))
           images
    else images in
  <[image_id := img]> images1.

Inductive Message :=
| ProductNotFound     (* "Product not found" *)
| ImageNotFound       (* "Image not found" *)
| ImageUpdated        (* "Image updated successfully" *).

(** The assignments of [updateProductImage]: a field of the body that is
    not [undefined] replaces the field of the image. *)
Definition assign (is_active' is_primary' : option bool) (order' : option Z)
    (image : ProductImage.t) : ProductImage.t :=
  {| ProductImage.product_id := ProductImage.product_id image;
     ProductImage.image_url := ProductImage.image_url image;
     ProductImage.image_public_id := ProductImage.image_public_id image;
     ProductImage.is_active := default (ProductImage.is_active image) is_active';
     ProductImage.is_primary :=
       default (ProductImage.is_primary image) is_primary';
     ProductImage.order := default (ProductImage.order image) order' |}.

(** [updateProductImage]; a path is modified when it is assigned a value
    other than the one it had. *)
Definition updateProductImage (products : gmap ObjectId Product.t)
    (product_id image_id : ObjectId) (is_active' is_primary' : option bool)
    (order' : option Z) (images : gmap ObjectId ProductImage.t)
    : Http.Response Message * gmap ObjectId ProductImage.t :=
  match Product.findById products product_id with
  | None => (Http.failure 404 ProductNotFound, images)
  | Some _ =>
      match images !! image_id with
      | Some image =>
          if bool_decide (ProductImage.product_id image = product_id)
          then
            let image1 := assign is_active' is_primary' order' image in
            (Http.ok ImageUpdated,
             save image_id
               (bool_decide (ProductImage.is_primary image1
                             ≠ ProductImage.is_primary image))
               image1 images)
          else (Http.failure 404 ImageNotFound, images)
      | None => (Http.failure 404 ImageNotFound, images)
      end
  end.

End ProductImageController.

(** ** Categories (models/Category.js, controllers/categoryController.js) *)

Module Category.

Record t := mk {
  name : string;
  description : string;
  logo_url : string;
  logo_public_id : string;
  counts : Z;
  is_active : bool;
  slug : option string
}.

Definition set_counts (n : Z) (c : t) : t :=
  {| name := name c; description := description c; logo_url := logo_url c;
     logo_public_id := logo_public_id c; counts := n;
     is_active := is_active c; slug := slug c |}.

(** [categorySchema.methods.incrementCount]; the name is untouched, so the
    pre-save hook leaves the slug alone. *)
Definition incrementCount (c : t) : t := set_counts (counts c + 1) c.

(** [categorySchema.methods.decrementCount] *)
Definition decrementCount (c : t) : t :=
  if counts c >? 0 then set_counts (counts c - 1) c else c.

Inductive Message :=
| CategoryNotFound      (* "Category not found" *)
| HasProducts
    (* "Cannot delete category with existing products. Please move or
       delete products first." *)
| CategoryDeleted       (* "Category deleted successfully" *).

(** The state [deleteCategory] acts on: the collection and the public ids
    handed to [deleteImage], in the order of the calls. *)
Record State := mkState {
  categories : gmap ObjectId t;
  deleted_images : list string
}.

(** [deleteCategory] *)
Definition deleteCategory (id : ObjectId) (st : State)
    : Http.Response Message * State :=
  match categories st !! id with
  | None => (Http.failure 404 CategoryNotFound, st)
  | Some category =>
      if counts category >? 0
      then (Http.failure 400 HasProducts, st)
      else
        let deleted :=
          if bool_decide (logo_public_id category ≠ "")
          then deleted_images st ++ [logo_public_id category]
          else deleted_images st in
        (Http.ok CategoryDeleted,
         {| categories := delete id (categories st);
            deleted_images := deleted |})
  end.

End Category.

(** ** The gallery of a blog (models/Blog.js and the blog controller, in
    unnamed/part_008) *)

Module Blog.

Record t := mk {
  title : string;
  thumbnail : string;
  gallery : list string;
  is_active : bool;
  views : Z;
  likes : Z
}.

Definition set_gallery (l : list string) (b : t) : t :=
  {| title := title b; thumbnail := thumbnail b; gallery := l;
     is_active := is_active b; views := views b; likes := likes b |}.

(** [s.split(sep).pop()]: what follows the last [sep]. *)
Fixpoint split_pop (sep : ascii) (segment s : string) : string :=
  match s with
  | EmptyString => segment
  | String c s' =>
      if Ascii.eqb c sep
      then split_pop sep EmptyString s'
      else split_pop sep (segment +:+ String c EmptyString) s'
  end.

(** [s.split(sep)[0]]: what precedes the first [sep]. *)
Fixpoint split_first (sep : ascii) (s : string) : string :=
  match s with
  | EmptyString => EmptyString
  | String c s' =>
      if Ascii.eqb c sep then EmptyString else String c (split_first sep s')
  end.

(** [imageUrl.split("/").pop().split(".")[0]] *)
Definition publicId_of (imageUrl : string) : string :=
  split_first "." (split_pop "/" EmptyString imageUrl).

Inductive Message :=
| BlogNotFound          (* "Blog not found" *)
| InvalidImageIndex     (* "Invalid image index" *)
| LastImage             (* "Cannot remove the last image from gallery" *)
| ImageRemoved          (* "Image removed from gallery successfully" *).

(** [removeFromGallery] of the controller; [found] is the result of
    [Blog.findById(id)], [index] is [parseInt(imageIndex)] with [None] for
    [NaN], and [deleted] lists the public ids handed to [deleteImage].  With
    [NaN] both comparisons of the bounds check are false, [blog.gallery[NaN]]
    is [undefined], whose [split] throws inside the inner [try], and
    [splice(NaN, 1)] removes from position 0. *)
Definition removeFromGallery (index : option Z) (found : option t)
    (deleted : list string)
    : Http.Response Message * option t * list string :=
  match found with
  | None => (Http.failure 404 BlogNotFound, found, deleted)
  | Some blog =>
      let len := Z.of_nat (length (gallery blog)) in
      if match index with
         | Some i => (i <? 0) || (i >=? len)
         | None => false
         end
      then (Http.failure 400 InvalidImageIndex, found, deleted)
      else if len =? 1
      then (Http.failure 400 LastImage, found, deleted)
      else
        let position :=
          match index with
          | Some i => Z.to_nat i
          | None => O
          end in
        let deleted' :=
          match index with
          | Some i =>
              match gallery blog !! Z.to_nat i with
              | Some imageUrl =>
                  deleted ++ ["blogs/gallery/" +:+ publicId_of imageUrl]
              | None => deleted
              end
          | None => deleted
          end in
        (Http.ok ImageRemoved,
         Some (set_gallery (delete position (gallery blog)) blog),
         deleted')
  end.

End Blog.

(** ** Sample documents *)

Module Sample.

(** An active product with 5 in stock, expiring at instant 1000. *)
Definition widget : Product.t :=
  {| Product.name := "Widget"; Product.price := 10%float;
     Product.quantity := 5;
     Product.is_active := Some true; Product.expiration_date := Some 1000 |}.

(** A deactivated product. *)
Definition gadget : Product.t :=
  {| Product.name := "Gadget"; Product.price := 3%float;
     Product.quantity := 9;
     Product.is_active := Some false; Product.expiration_date := Some 1000 |}.

Definition products : gmap ObjectId Product.t :=
  <[10%nat := widget]> (<[11%nat := gadget]> ∅).

(** The active cart of user 1 with the given lines, as saved. *)
Definition cart_with (lines : list Cart.Item) : Cart.t :=
  Cart.save (Cart.set_items lines (Cart.new 1%nat)).

(** The cart of user 1 holding one widget, added at instant 0 at the price
    of 10. *)
Definition cart1 : Cart.t := cart_with [Cart.mkItem 10%nat 1 10%float 0].

(** The cart of user 1 after adding 3 widgets to a new cart at instant 0. *)
Definition cart3 : Cart.t := cart_with [Cart.mkItem 10%nat 3 10%float 0].

(** An active cart with a purchasable line and a line for the deactivated
    product. *)
Definition cart_mixed : Cart.t :=
  cart_with [Cart.mkItem 10%nat 1 10%float 0; Cart.mkItem 11%nat 1 3%float 0].

(** An active cart asking for 7 widgets (5 in stock) and one of the
    deactivated product. *)
Definition cart_stale : Cart.t :=
  cart_with [Cart.mkItem 10%nat 7 10%float 0; Cart.mkItem 11%nat 1 3%float 0].

(** An active cart whose only line is for product 12, deleted since:
    [deleteProduct] leaves the carts as they are. *)
Definition cart_dangling : Cart.t :=
  cart_with [Cart.mkItem 12%nat 1 4%float 0].

(** The catalogue after the price of the widget went from 10 to 12. *)
Definition products_repriced : gmap ObjectId Product.t :=
  <[10%nat := {| Product.name := "Widget"; Product.price := 12%float;
                Product.quantity := 5; Product.is_active := Some true;
                Product.expiration_date := Some 1000 |}]> products.

(** Images of products 10 and 20; two images of product 10 are flagged
    primary. *)
Definition images : gmap ObjectId ProductImage.t :=
  <[1%nat := ProductImage.mk 10%nat "a.png" "a" true true 0]>
  (<[2%nat := ProductImage.mk 10%nat "b.png" "b" true true 1]>
  (<[3%nat := ProductImage.mk 10%nat "c.png" "c" true false 2]>
  (<[4%nat := ProductImage.mk 20%nat "d.png" "d" true true 0]> ∅))).

(** A collection holding one entity named "Foo", and a new entity named
    "Foo!". *)
Definition foo : Slug.Doc :=
  {| Slug._id := 1%nat; Slug.name := "Foo"; Slug.slug := Some "foo" |}.

Definition foo_bang : Slug.Doc :=
  {| Slug._id := 2%nat; Slug.name := "Foo!"; Slug.slug := None |}.

(** The same group made private. *)
Definition private_club : Group.t :=
  {| Group.name := "Club"; Group.is_active := true;
     Group.is_private := true; Group.service_id := 1%nat;
     Group.created_by := 1%nat; Group.group_admin := 1%nat;
     Group.members_count := 0; Group.joined_users := [];
     Group.approval_status := Group.approved |}.

(** The private group after user 7 asked to join at instant 0. *)
Definition private_club_asked : Group.t :=
  {| Group.name := "Club"; Group.is_active := true;
     Group.is_private := true; Group.service_id := 1%nat;
     Group.created_by := 1%nat; Group.group_admin := 1%nat;
     Group.members_count := 0;
     Group.joined_users :=
       [Group.mkJoin 7%nat 0 Group.pending Group.member];
     Group.approval_status := Group.approved |}.

(** The cart of user 1 with one widget, submitted at instant 1. *)
Definition cart_pending : Cart.t := Cart.submitForApproval 1 "" cart1.

(** A public, active, approved group administered by user 1, without
    members. *)
Definition club : Group.t :=
  {| Group.name := "Club"; Group.is_active := true;
     Group.is_private := false; Group.service_id := 1%nat;
     Group.created_by := 1%nat; Group.group_admin := 1%nat;
     Group.members_count := 0; Group.joined_users := [];
     Group.approval_status := Group.approved |}.

End Sample.

(** ** Sentences of the specification, as they are written *)

Module Stated.

(** Submission: an active cart with at least one purchasable line becomes
    pending, with [submitted_at] stamped and the notes stored. *)
Definition submit_with_a_purchasable_line (now : Date)
    (db : gmap ObjectId Product.t) (body_notes : option string)
    (cart : Cart.t) : Prop :=
  Cart.status cart = Cart.active →
  (∃ item, item ∈ Cart.items cart ∧ CartController.purchasable now db item) →
  ∃ cart',
    (CartController.submitCart now db body_notes (Some cart)).2 = Some cart' ∧
    Cart.status cart' = Cart.pending ∧
    Cart.submitted_at cart' = Some now ∧
    Cart.notes cart' = Some (default "" body_notes).

(** Fetching: the product of the line is missing, inactive, expired or has
    zero stock. *)
Definition unavailable (now : Date) (db : gmap ObjectId Product.t)
    (item : Cart.Item) : bool :=
  match db !! Cart.product_id item with
  | None => true
  | Some p =>
      negb (Product.active p) || Product.is_expired now p
      || (Product.quantity p =? 0)
  end.

(** Fetching: the quantity of the line exceeds the positive stock of its
    product. *)
Definition exceeds_stock (db : gmap ObjectId Product.t) (item : Cart.Item)
    : bool :=
  match db !! Cart.product_id item with
  | None => false
  | Some p =>
      (0 <? Product.quantity p) && (Product.quantity p <? Cart.quantity item)
  end.

(** Fetching: the line is corrected when it is removed or reduced. *)
Definition needs_correction (now : Date) (db : gmap ObjectId Product.t)
    (item : Cart.Item) : bool :=
  unavailable now db item || exceeds_stock db item.

(** Fetching: an unavailable line is removed, a line above the stock is
    reduced to the stock, any other line stays as it is. *)
Definition corrected_line (now : Date) (db : gmap ObjectId Product.t)
    (item : Cart.Item) : option Cart.Item :=
  if unavailable now db item then None
  else if exceeds_stock db item
  then p ← db !! Cart.product_id item;
       Some (Cart.set_quantity (Product.quantity p) item)
  else Some item.

(** Price protection: [after] is [before] with some lines removed and some
    quantities changed; the product, the captured price and the date of
    every remaining line are those it had. *)
Inductive lines_kept : list Cart.Item → list Cart.Item → Prop :=
| kept_nil : lines_kept [] []
| kept_line (line : Cart.Item) (q : Z) (before after : list Cart.Item) :
    lines_kept before after →
    lines_kept (line :: before) (Cart.set_quantity q line :: after)
| kept_drop (line : Cart.Item) (before after : list Cart.Item) :
    lines_kept before after →
    lines_kept (line :: before) after.

(** Slugs: saving a new or renamed entity of type [e] gives it a slug that
    no other entity of the collection holds. *)
Definition slug_made_unique (e : Slug.Entity) (coll : list Slug.Doc)
    (d : Slug.Doc) : Prop :=
  ∃ d', Slug.pre_save e coll true d = Some d' ∧ Slug.unique_for coll d'.

End Stated.

(** * Properties *)

(** Closes [purchasable now db item] for concrete data with product [p]. *)
Ltac purchasable_by p :=
  exists p;
  split; [reflexivity | split; [reflexivity | split; [reflexivity | simpl; lia]]].

(** ** Totals of a cart *)

Section CartTotals.

Import Cart.

Lemma fold_left_sum_quantity (l : list Item) (a : Z) :
  fold_left (λ total item, total + quantity item) l a = a + sum_quantity l.
Proof.
  revert a. induction l as [|item l IH]; intros a; simpl.
  - lia.
  - rewrite IH. lia.
Qed.

(** The reduction of the hook adds the amounts in the order of the items,
    with the rounding of each addition. *)
Lemma fold_left_sum_amount (l : list Item) :
  fold_left
    (λ total item,
       (total + price_at_time item * number_of_Z (quantity item))%float)
    l 0%float
  = sum_amount l.
Proof.
  unfold sum_amount.
  induction l as [|item l IH] using rev_ind; [done|].
  rewrite fold_left_app, rev_unit. simpl. by rewrite IH.
Qed.

Lemma save_items (c : t) : items (save c) = items c.
Proof. unfold save, pre_save. by destruct (items c) eqn:E. Qed.

Lemma save_status (c : t) : status (save c) = status c.
Proof. unfold save, pre_save. by destruct (items c). Qed.

Lemma save_totals_ok (c : t) : totals_ok (save c).
Proof.
  unfold totals_ok. rewrite save_items.
  unfold save, pre_save. destruct (items c) as [|item l] eqn:E.
  - done.
  - split.
    + cbn [total_items set_totals]. rewrite fold_left_sum_quantity. lia.
    + cbn [total_amount set_totals]. apply fold_left_sum_amount.
Qed.

Lemma save_empty (c : t) :
  items c = [] → total_amount (save c) = 0%float ∧ total_items (save c) = 0.
Proof. intros E. unfold save, pre_save. by rewrite E. Qed.

(** Every schema method that does not throw ends in [this.save()]. *)
Lemma mutate_saves (how : Loaded) (now : Date) (m : Mutation) (c c' : t) :
  mutate how now m c = Some c' → ∃ c0, c' = save c0.
Proof.
  destruct m; simpl;
    unfold addItem, updateItemQuantity, removeItem, clearCart,
      submitForApproval, approveCart, rejectCart, cancelCart;
    intros H; simplify_option_eq; repeat case_match; simplify_eq; eauto.
Qed.

(** C1. After each persisting mutation of a cart (add item, update quantity,
    remove, clear, submit, approve, reject, cancel), on a cart loaded with
    or without its products, [total_items] is the sum of the quantities of
    its items and [total_amount] the sum of [price_at_time × quantity], each
    product and each addition being the one of JavaScript numbers, taken in
    the order of the items; without items both totals are 0. *)
Theorem cart_totals_after_mutation (how : Loaded) (now : Date)
    (m : Mutation) (c c' : t) :
  mutate how now m c = Some c' →
  total_items c' = sum_quantity (items c') ∧
  total_amount c' = sum_amount (items c') ∧
  (items c' = [] → total_amount c' = 0%float ∧ total_items c' = 0).
Proof.
  intros H.
  destruct (mutate_saves how now m c c' H) as [c0 ->].
  destruct (save_totals_ok c0) as [Hq Ha].
  split; [exact Hq | split; [exact Ha |]].
  rewrite save_items. apply save_empty.
Qed.

(** C1 where 3 units at the price 0.1 (the double 0x1.999999999999ap-4) are
    added to a new cart: the total is the double 0.30000000000000004
    (0x1.3333333333334p-2), the sum as JavaScript computes it. *)
Lemma cart_totals_after_mutation_witness :
  ∃ c',
    mutate stored 0 (AddItem 10%nat 3 0x1.999999999999ap-4%float)
      (new 1%nat) = Some c' ∧
    total_items c' = 3 ∧
    total_amount c' = 0x1.3333333333334p-2%float.
Proof.
  eexists. split; [reflexivity|].
  destruct (cart_totals_after_mutation stored 0
              (AddItem 10%nat 3 0x1.999999999999ap-4%float) (new 1%nat) _
              eq_refl) as (Hq & Ha & _).
  split; [rewrite Hq | rewrite Ha]; reflexivity.
Defined.

End CartTotals.

(** ** Membership counter of a group *)

Section GroupMembers.

Import Group.

Lemma approved_count_set_members_count (n : Z) (g : t) :
  approved_count (set_members_count n g) = approved_count g.
Proof. reflexivity. Qed.

Lemma recount_ok (g : t) : count_ok (set_members_count (approved_count g) g).
Proof. reflexivity. Qed.

(** A successful approval recomputes the counter. *)
Lemma approveUserJoin_count_ok (currentUserId userId : ObjectId) (g g' : t)
    (r : Response) :
  approveUserJoin currentUserId userId (Some g) = (r, Some g') →
  Http.success r = true →
  count_ok g'.
Proof.
  unfold approveUserJoin. intros H Hs.
  repeat case_match; simplify_eq; try discriminate Hs.
  apply recount_ok.
Qed.

(** Joining keeps a correct counter correct: a public group recounts, a
    private one appends a pending record. *)
Lemma joinGroup_count_ok (now : Date) (userId : ObjectId) (g g' : t)
    (r : Response) :
  count_ok g →
  joinGroup now userId (Some g) = (r, Some g') →
  count_ok g'.
Proof.
  unfold joinGroup. intros Hg H.
  repeat case_match; simplify_eq; try done.
  unfold count_ok, approved_count, save in *. simpl.
  rewrite filter_app, length_app. simpl. rewrite Hg. lia.
Qed.

(** C2. A member of a public group who joined (and was counted) and is then
    rejected by the group admin keeps being counted: [rejectUserJoin] writes
    the record's status and saves without recomputing [members_count]. *)
Theorem rejectUserJoin_leaves_members_count_stale :
  ∃ g1 g2,
    joinGroup 0 7%nat (Some Sample.club) = (Http.ok JoinedGroup, Some g1) ∧
    count_ok g1 ∧
    rejectUserJoin 1%nat 7%nat (Some g1) = (Http.ok UserRejected, Some g2) ∧
    members_count g2 = 1 ∧
    approved_count g2 = 0.
Proof. do 2 eexists. repeat split; reflexivity. Qed.

End GroupMembers.

(** ** Adding to a cart beyond the stock *)

Section AddToCart.

Import Cart CartController.

(** On a populated cart the test of a line against a product never holds:
    a lookup that does not throw has found nothing. *)
Lemma findIndex_populated (db : gmap ObjectId Product.t)
    (productId : ObjectId) (l : list Item) (index : option nat) :
  findIndex (populated db) productId l = Some index → index = None.
Proof.
  revert index. induction l as [|item l IH]; intros index H; simpl in H.
  - by simplify_eq.
  - destruct (db !! product_id item); [|done].
    destruct (findIndex (populated db) productId l) as [i|]; [|done].
    simpl in H. simplify_eq. by rewrite (IH i eq_refl).
Qed.

Lemma find_populated (db : gmap ObjectId Product.t) (productId : ObjectId)
    (l : list Item) (existingItem : option Item) :
  find (populated db) productId l = Some existingItem → existingItem = None.
Proof.
  induction l as [|item l IH]; intros H; simpl in H.
  - by simplify_eq.
  - destruct (db !! product_id item); [by apply IH | done].
Qed.

Lemma filter_others_populated (db : gmap ObjectId Product.t)
    (productId : ObjectId) (l kept : list Item) :
  filter_others (populated db) productId l = Some kept → kept = l.
Proof.
  revert kept. induction l as [|item l IH]; intros kept H; simpl in H.
  - by simplify_eq.
  - destruct (db !! product_id item); [|done].
    destruct (filter_others (populated db) productId l) as [k|]; [|done].
    simpl in H. simplify_eq. by rewrite (IH k eq_refl).
Qed.

(** Without a line whose product is gone, the lookups run to the end. *)
Lemma findIndex_no_dangling (db : gmap ObjectId Product.t)
    (productId : ObjectId) (l : list Item) :
  Forall (λ item, is_Some (db !! product_id item)) l →
  findIndex (populated db) productId l = Some None.
Proof.
  induction 1 as [|item l [p Hp] _ IH]; simpl; [done|].
  by rewrite Hp, IH.
Qed.

Lemma find_no_dangling (db : gmap ObjectId Product.t)
    (productId : ObjectId) (l : list Item) :
  Forall (λ item, is_Some (db !! product_id item)) l →
  find (populated db) productId l = Some None.
Proof.
  induction 1 as [|item l [p Hp] _ IH]; simpl; [done|].
  by rewrite Hp.
Qed.

Lemma filter_others_no_dangling (db : gmap ObjectId Product.t)
    (productId : ObjectId) (l : list Item) :
  Forall (λ item, is_Some (db !! product_id item)) l →
  filter_others (populated db) productId l = Some l.
Proof.
  induction 1 as [|item l [p Hp] _ IH]; simpl; [done|].
  by rewrite Hp, IH.
Qed.

(** With a line whose product is gone, they throw. *)
Lemma findIndex_dangling (db : gmap ObjectId Product.t)
    (productId : ObjectId) (l : list Item) :
  ¬ Forall (λ item, is_Some (db !! product_id item)) l →
  findIndex (populated db) productId l = None.
Proof.
  intros Hd.
  destruct (findIndex (populated db) productId l) as [index|] eqn:E; [|done].
  exfalso. apply Hd. clear Hd. revert index E.
  induction l as [|item l IH]; intros index E; [done|].
  simpl in E. destruct (db !! product_id item) as [p|] eqn:Hp; [|done].
  destruct (findIndex (populated db) productId l) as [i|]; [|done].
  constructor; [by exists p | by eapply IH].
Qed.

Lemma filter_others_dangling (db : gmap ObjectId Product.t)
    (productId : ObjectId) (l : list Item) :
  ¬ Forall (λ item, is_Some (db !! product_id item)) l →
  filter_others (populated db) productId l = None.
Proof.
  intros Hd.
  destruct (filter_others (populated db) productId l) as [kept|] eqn:E;
    [|done].
  exfalso. apply Hd. clear Hd. revert kept E.
  induction l as [|item l IH]; intros kept E; [done|].
  simpl in E. destruct (db !! product_id item) as [p|] eqn:Hp; [|done].
  destruct (filter_others (populated db) productId l) as [k|]; [|done].
  constructor; [by exists p | by eapply IH].
Qed.

(** On a cart loaded with its stored identifiers no lookup throws. *)
Lemma findIndex_stored (productId : ObjectId) (l : list Item) :
  is_Some (findIndex stored productId l).
Proof.
  induction l as [|item l [index IH]]; simpl; [done|].
  case_bool_decide; [done|]. by rewrite IH.
Qed.

Lemma filter_others_stored (productId : ObjectId) (l : list Item) :
  is_Some (filter_others stored productId l).
Proof.
  induction l as [|item l [kept IH]]; simpl; [done|]. by rewrite IH.
Qed.

(** When a schema method persists: always on a cart loaded with its stored
    identifiers, and on a populated cart whose lines all reference a
    product there is, provided the admin notes of an approval or a
    rejection have at most 500 characters once trimmed. *)
Lemma mutate_persists (how : Loaded) (now : Date) (m : Mutation)
    (c : Cart.t) :
  match how with
  | stored => True
  | populated db => no_dangling db c
  end →
  match m with
  | ApproveCart _ adminNotes | RejectCart _ adminNotes =>
      (String.length (Slug.trim adminNotes) ≤ 500)%nat
  | _ => True
  end →
  is_Some (mutate how now m c).
Proof.
  intros Hhow Hm.
  assert (Hi : ∀ productId, ∃ index,
             findIndex how productId (items c) = Some index).
  { intros productId. destruct how as [|db].
    - apply findIndex_stored.
    - exists None. by apply findIndex_no_dangling. }
  assert (Hf : ∀ productId, ∃ kept,
             filter_others how productId (items c) = Some kept).
  { intros productId. destruct how as [|db].
    - apply filter_others_stored.
    - exists (items c). by apply filter_others_no_dangling. }
  destruct m; simpl; try done.
  - unfold addItem. destruct (Hi productId) as [[i|] ->]; done.
  - unfold updateItemQuantity. destruct (Hi productId) as [[i|] ->]; simpl;
      [by destruct (newQuantity <=? 0) | done].
  - unfold removeItem. by destruct (Hf productId) as [kept ->].
  - unfold Cart.approveCart, admin_notes_valid, admin_notes_setter.
    by rewrite bool_decide_eq_true_2.
  - unfold Cart.rejectCart, admin_notes_valid, admin_notes_setter.
    by rewrite bool_decide_eq_true_2.
Qed.

(** The example of the specification, first step: with 5 widgets in stock,
    adding 3 to no cart yet saves a cart with one line of 3. *)
Example addToCart_stock_5_add_3 :
  addToCart 0 Sample.products 1%nat 10%nat (Some 3) None
  = (ok ItemAdded, Some Sample.cart3).
Proof. reflexivity. Qed.

(** C3, at the example of the specification.  With 5 widgets in stock and a
    line of 3 in the cart, adding 4 is not refused: [addToCart] answers 200
    "Item added to cart successfully" and saves the cart with a second line
    of 4 widgets after the line of 3, 7 widgets in all.  The cart
    [Cart.getUserActiveCart] returns is populated, so that no line prints
    as the identifier of the product and the quantity in the cart is read
    as 0. *)
Theorem addToCart_beyond_stock_accepted :
  Sample.products !! 10%nat = Some Sample.widget ∧
  Product.quantity Sample.widget = 5 ∧
  items Sample.cart3 = [mkItem 10%nat 3 10%float 0] ∧
  ∃ cart',
    addToCart 2 Sample.products 1%nat 10%nat (Some 4) (Some Sample.cart3)
    = (ok ItemAdded, Some cart') ∧
    items cart' = [mkItem 10%nat 3 10%float 0; mkItem 10%nat 4 10%float 2] ∧
    total_items cart' = 7.
Proof.
  split; [reflexivity | split; [reflexivity | split; [reflexivity|]]].
  eexists. split; [reflexivity | split; reflexivity].
Qed.

End AddToCart.

(** ** Submitting a cart *)

Section SubmitCart.

Import Cart CartController.

Lemma submit_check_purchasable (now : Date) (db : gmap ObjectId Product.t)
    (l : list Item) :
  Forall (purchasable now db) l → submit_check now db l = None.
Proof.
  induction 1 as [|item l (p & Hp & Hact & Hexp & Hq) _ IH]; simpl; [done|].
  unfold Product.findById. rewrite Hp.
  unfold Product.active. rewrite Hact, Hexp. simpl.
  destruct (Z.gtb_spec (quantity item) (Product.quantity p)); [lia | exact IH].
Qed.

(** C4, as stated. A cart with a purchasable line and a line for a
    deactivated product is refused: one purchasable line is not enough. *)
Lemma submitCart_one_purchasable_line_not_enough :
  ¬ Stated.submit_with_a_purchasable_line 2 Sample.products None
      Sample.cart_mixed.
Proof.
  intros H. destruct H as (cart' & Hc & Hs & _).
  - reflexivity.
  - exists (mkItem 10%nat 1 10%float 0). split.
    + apply list_elem_of_here.
    + purchasable_by Sample.widget.
  - assert (E : cart' = Sample.cart_mixed).
    { symmetry. apply (inj Some). exact Hc. }
    subst cart'. discriminate Hs.
Qed.

(** C4, amended. Submitting an active cart without items is refused with a
    400 failure and the cart is left as it was; submitting an active cart
    with at least one item, every line of which is purchasable, saves it
    with status [pending], [submitted_at] stamped with the current instant
    and the notes of the request, the items untouched. *)
Theorem submitCart_active_cart (now : Date) (db : gmap ObjectId Product.t)
    (body_notes : option string) (cart : Cart.t) :
  status cart = active →
  (items cart = [] →
     submitCart now db body_notes (Some cart)
       = (failure 400 CannotSubmitEmpty, Some cart)) ∧
  (items cart ≠ [] → Forall (purchasable now db) (items cart) →
     ∃ cart',
       submitCart now db body_notes (Some cart)
         = (ok CartSubmitted, Some cart') ∧
       status cart' = pending ∧
       submitted_at cart' = Some now ∧
       notes cart' = Some (default "" body_notes) ∧
       items cart' = items cart).
Proof.
  intros Hactive. split.
  - intros Hnil. unfold submitCart. by rewrite Hnil.
  - intros Hne Hall. unfold submitCart.
    rewrite bool_decide_eq_false_2
      by (destruct (items cart); [done | simpl; lia]).
    unfold canBeModified. rewrite bool_decide_eq_true_2 by done. simpl.
    rewrite (submit_check_purchasable now db _ Hall).
    eexists. split; [reflexivity|].
    unfold submitForApproval.
    rewrite save_status, save_items. repeat split.
    all: unfold save, pre_save; simpl; by destruct (items cart).
Qed.

(** C4, amended, at the cart of user 1 holding one widget. *)
Lemma submitCart_active_cart_witness :
  ∃ cart',
    submitCart 1 Sample.products (Some "") (Some Sample.cart1)
      = (ok CartSubmitted, Some cart') ∧
    status cart' = pending ∧
    submitted_at cart' = Some 1 ∧
    notes cart' = Some "" ∧
    items cart' = items Sample.cart1.
Proof.
  refine (proj2 (submitCart_active_cart 1 Sample.products (Some "")
                   Sample.cart1 _) _ _).
  - reflexivity.
  - discriminate.
  - repeat constructor. purchasable_by Sample.widget.
Defined.

End SubmitCart.

(** ** Approving a cart *)

Section ApproveCart.

Import Cart CartController.

(** The projection of [approveCart] leaves [is_active] out, so the populated
    product is never truthy on it. *)
Lemma approve_fields_inactive (p : Product.t) :
  Product.active (Product.select approve_fields p) = false.
Proof. reflexivity. Qed.

(** The validation loop of [approveCart] stops at the first line, whatever
    its product. *)
Lemma approve_check_first_line (now : Date) (db : gmap ObjectId Product.t)
    (item : Item) (rest : list Item) :
  ∃ name, approve_check now db (item :: rest)
          = Some (failure 400 (NoLongerAvailable name)).
Proof.
  simpl. unfold Product.populate.
  destruct (db !! product_id item) as [p|]; simpl; by eexists.
Qed.

(** A cart that is not pending is refused and left as it is. *)
Lemma approveCart_not_pending (now : Date) (db : gmap ObjectId Product.t)
    (adminId : ObjectId) (body_admin_notes : option string) (cart : Cart.t) :
  status cart ≠ pending →
  approveCart now db adminId body_admin_notes (Some cart)
    = (failure 400 CannotBeProcessed, Some cart).
Proof.
  intros Hs. unfold approveCart, canBeProcessed.
  by rewrite bool_decide_eq_false_2.
Qed.

(** C5. A pending cart whose only line is purchasable (product active, not
    expired, 5 in stock for a quantity of 1) is not approved: [approveCart]
    answers 400 "Product Widget is no longer available" and leaves the cart
    pending. *)
Theorem approveCart_refuses_purchasable_pending_cart :
  status Sample.cart_pending = pending ∧
  Forall (purchasable 5 Sample.products) (items Sample.cart_pending) ∧
  approveCart 5 Sample.products 99%nat (Some "fine")
      (Some Sample.cart_pending)
    = (failure 400 (NoLongerAvailable (Some "Widget")),
       Some Sample.cart_pending).
Proof.
  split; [reflexivity | split; [| reflexivity]].
  repeat constructor. purchasable_by Sample.widget.
Qed.

End ApproveCart.

(** ** Fetching the active cart *)

Section GetUserCart.

Import Cart CartController.

(** One turn of the loop of [getUserCart] against the specification's
    reading of it. *)
Lemma revalidate_corrected_line (now : Date) (db : gmap ObjectId Product.t)
    (validItems : list Item) (hasChanges : bool) (item : Item) :
  1 ≤ quantity item →
  map_Forall (λ _ p, 0 ≤ Product.quantity p) db →
  revalidate now db (validItems, hasChanges) item
  = (validItems ++ option_list (Stated.corrected_line now db item),
     hasChanges || Stated.needs_correction now db item).
Proof.
  intros Hq Hdb.
  unfold revalidate, Stated.corrected_line, Stated.needs_correction,
    Stated.unavailable, Stated.exceeds_stock, Product.populate.
  destruct (db !! product_id item) as [p|] eqn:Hp; simpl.
  2: { by rewrite app_nil_r, orb_true_r. }
  specialize (Hdb _ _ Hp). simpl in Hdb.
  replace (Product.active (Product.select active_cart_fields p))
    with (Product.active p) by reflexivity.
  replace (Product.is_expired now (Product.select active_cart_fields p))
    with (Product.is_expired now p) by reflexivity.
  destruct (Product.active p), (Product.is_expired now p); simpl;
    rewrite ?app_nil_r, ?orb_true_r; try reflexivity.
  destruct (Z.eqb_spec (Product.quantity p) 0) as [E0|N0]; simpl.
  - rewrite E0. destruct (Z.leb_spec (quantity item) 0); [lia|].
    simpl. by rewrite app_nil_r, orb_true_r.
  - destruct (Z.leb_spec (quantity item) (Product.quantity p)) as [Hle|Hgt].
    + destruct (Z.ltb_spec 0 (Product.quantity p)); [|lia].
      destruct (Z.ltb_spec (Product.quantity p) (quantity item)); [lia|].
      simpl. by rewrite orb_false_r.
    + destruct (Z.gtb_spec (Product.quantity p) 0); [|lia].
      destruct (Z.ltb_spec 0 (Product.quantity p)); [|lia].
      destruct (Z.ltb_spec (Product.quantity p) (quantity item)); [|lia].
      simpl. by rewrite orb_true_r.
Qed.

Lemma fold_revalidate (now : Date) (db : gmap ObjectId Product.t)
    (l validItems : list Item) (hasChanges : bool) :
  Forall (λ item, 1 ≤ quantity item) l →
  map_Forall (λ _ p, 0 ≤ Product.quantity p) db →
  fold_left (revalidate now db) l (validItems, hasChanges)
  = (validItems ++ omap (Stated.corrected_line now db) l,
     hasChanges || existsb (Stated.needs_correction now db) l).
Proof.
  intros Hl Hdb. revert validItems hasChanges.
  induction Hl as [|item l Hq _ IH]; intros validItems hasChanges.
  - simpl. by rewrite app_nil_r, orb_false_r.
  - change (fold_left (revalidate now db) (item :: l) (validItems, hasChanges))
      with (fold_left (revalidate now db) l
              (revalidate now db (validItems, hasChanges) item)).
    rewrite (revalidate_corrected_line now db _ _ _ Hq Hdb), IH.
    rewrite <- app_assoc, <- orb_assoc. simpl.
    by destruct (Stated.corrected_line now db item).
Qed.

(** C6. Fetching the active cart, whose lines have a quantity of at least 1
    and whose products have a stock of at least 0: the lines of an
    unavailable product (missing, inactive, expired, zero stock) are removed
    and the lines above the stock reduced to it; if any line was corrected
    the corrected cart is saved and the response carries the cart-updated
    notice, otherwise the cart is returned as it is, without a message. *)
Theorem getUserCart_corrects_lines (now : Date)
    (db : gmap ObjectId Product.t) (userId : ObjectId) (cart : Cart.t) :
  Forall (λ item, 1 ≤ quantity item) (items cart) →
  map_Forall (λ _ p, 0 ≤ Product.quantity p) db →
  getUserCart now db userId (Some cart)
  = if existsb (Stated.needs_correction now db) (items cart)
    then (Http.mk 200 true (Some CartUpdated),
          save (set_items
                  (omap (Stated.corrected_line now db) (items cart)) cart))
    else (Http.mk 200 true None, cart).
Proof.
  intros Hl Hdb. unfold getUserCart.
  rewrite (fold_revalidate now db _ [] false Hl Hdb). simpl.
  by destruct (existsb _ _).
Qed.

(** C6 at a cart asking for 7 widgets (5 in stock) and one deactivated
    gadget: the first line is reduced to 5, the second removed. *)
Lemma getUserCart_corrects_lines_witness :
  getUserCart 2 Sample.products 1%nat (Some Sample.cart_stale)
  = (Http.mk 200 true (Some CartUpdated),
     save (set_items [mkItem 10%nat 5 10%float 0] Sample.cart_stale)).
Proof.
  rewrite (getUserCart_corrects_lines 2 Sample.products 1%nat
             Sample.cart_stale).
  - reflexivity.
  - repeat constructor; simpl; lia.
  - apply (bool_decide_unpack _). vm_compute. exact I.
Defined.

End GetUserCart.

(** ** The lines of a cart and their prices *)

Section PriceProtection.

Import Cart CartController.
Import Stated.

Lemma set_quantity_same (line : Item) : set_quantity (quantity line) line = line.
Proof. by destruct line. Qed.

Lemma lines_kept_same (line : Item) (before after : list Item) :
  lines_kept before after → lines_kept (line :: before) (line :: after).
Proof.
  intros H. rewrite <- (set_quantity_same line) at 2. by apply kept_line.
Qed.

Lemma lines_kept_refl (l : list Item) : lines_kept l l.
Proof.
  induction l as [|line l IH]; [apply kept_nil | by apply lines_kept_same].
Qed.

Lemma lines_kept_alter (f : Item → Z) (i : nat) (l : list Item) :
  lines_kept l (alter (λ item, set_quantity (f item) item) i l).
Proof.
  revert i. induction l as [|line l IH]; intros [|i]; simpl.
  - apply kept_nil.
  - apply kept_nil.
  - apply kept_line, lines_kept_refl.
  - apply lines_kept_same, IH.
Qed.

Lemma lines_kept_delete (i : nat) (l : list Item) : lines_kept l (delete i l).
Proof.
  revert i. induction l as [|line l IH]; intros [|i]; simpl.
  - apply kept_nil.
  - apply kept_nil.
  - apply kept_drop, lines_kept_refl.
  - apply lines_kept_same, IH.
Qed.

Lemma lines_kept_filter_others (how : Loaded) (productId : ObjectId)
    (l kept : list Item) :
  filter_others how productId l = Some kept → lines_kept l kept.
Proof.
  revert kept. induction l as [|line l IH]; intros kept H; simpl in H.
  - simplify_eq. apply kept_nil.
  - destruct (same_product how productId line) as [same|]; [|done].
    destruct (filter_others how productId l) as [k|]; [|done].
    simpl in H. simplify_eq. destruct same.
    + by apply kept_drop, IH.
    + by apply lines_kept_same, IH.
Qed.

Lemma lines_kept_nil (l : list Item) : lines_kept l [].
Proof. induction l; [apply kept_nil | by apply kept_drop]. Qed.

Lemma lines_kept_app (l1 l1' l2 l2' : list Item) :
  lines_kept l1 l1' → lines_kept l2 l2' → lines_kept (l1 ++ l2) (l1' ++ l2').
Proof.
  induction 1; intros H2; simpl; [done | apply kept_line | apply kept_drop];
    auto.
Qed.

(** The loop of [getUserCart] removes lines and changes quantities only. *)
Lemma fold_revalidate_kept (now : Date) (db : gmap ObjectId Product.t)
    (l done_before done_after : list Item) (hasChanges : bool) :
  lines_kept done_before done_after →
  lines_kept (done_before ++ l)
    (fold_left (revalidate now db) l (done_after, hasChanges)).1.
Proof.
  revert done_before done_after hasChanges.
  induction l as [|item l IH]; intros done_before done_after hasChanges Hk.
  - simpl. by rewrite app_nil_r.
  - change (fold_left (revalidate now db) (item :: l)
              (done_after, hasChanges))
      with (fold_left (revalidate now db) l
              (revalidate now db (done_after, hasChanges) item)).
    replace (done_before ++ item :: l) with ((done_before ++ [item]) ++ l)
      by (by rewrite <- app_assoc).
    unfold revalidate.
    repeat case_match; apply IH;
      first [ apply lines_kept_app
            | rewrite <- (app_nil_r done_after); apply lines_kept_app ];
      try done.
    all: first [ apply lines_kept_refl
               | apply lines_kept_nil
               | apply kept_line, kept_nil ].
Qed.

Lemma getUserCart_lines_kept (now : Date) (db : gmap ObjectId Product.t)
    (userId : ObjectId) (cart : Cart.t) :
  lines_kept (items cart) (items (getUserCart now db userId (Some cart)).2).
Proof.
  unfold getUserCart.
  pose proof (fold_revalidate_kept now db (items cart) [] [] false kept_nil)
    as Hk.
  destruct (fold_left (revalidate now db) (items cart) ([], false))
    as [validItems hasChanges].
  simpl in *. destruct hasChanges; [|apply lines_kept_refl].
  by rewrite save_items.
Qed.

(** A schema method keeps the lines, or is [addItem] appending a line. *)
Lemma mutate_lines_kept (how : Loaded) (now : Date) (m : Mutation)
    (c c' : Cart.t) :
  mutate how now m c = Some c' →
  lines_kept (items c) (items c') ∨
  ∃ productId q price,
    m = AddItem productId q price ∧
    items c' = items c ++ [mkItem productId q price now].
Proof.
  destruct m; simpl; intros H.
  - unfold addItem in H.
    destruct (findIndex how productId (items c)) as [[i|]|]; simpl in H;
      simplify_eq; rewrite save_items; simpl.
    + left. apply (lines_kept_alter (λ item, quantity item + qty)).
    + right. by eexists _, _, _.
  - left. unfold updateItemQuantity in H.
    destruct (findIndex how productId (items c)) as [[i|]|]; simpl in H;
      [destruct (newQuantity <=? 0)| |]; simplify_eq; rewrite save_items;
      simpl.
    + apply lines_kept_delete.
    + apply (lines_kept_alter (λ _, newQuantity)).
    + apply lines_kept_refl.
  - left. unfold removeItem in H.
    destruct (filter_others how productId (items c)) as [kept|] eqn:Hf;
      simpl in H; simplify_eq. rewrite save_items. simpl.
    by eapply lines_kept_filter_others.
  - left. simplify_eq. apply lines_kept_nil.
  - left. simplify_eq. unfold submitForApproval. rewrite save_items.
    apply lines_kept_refl.
  - left. unfold Cart.approveCart in H. case_match; simplify_eq.
    rewrite save_items. apply lines_kept_refl.
  - left. unfold Cart.rejectCart in H. case_match; simplify_eq.
    rewrite save_items. apply lines_kept_refl.
  - left. simplify_eq. unfold Cart.cancelCart. rewrite save_items.
    apply lines_kept_refl.
Qed.

(** C7, where two more widgets are added after the price went from 10 to
    12.  The cart holds a line of 3 widgets at the captured price of 10;
    [addToCart] does not sum the quantities into that line: it answers 200
    and saves the cart with a second line for the widget, 2 units at the
    price of 12, after the first line, which stays as it was. *)
Theorem addToCart_repriced_adds_second_line :
  items Sample.cart3 = [mkItem 10%nat 3 10%float 0] ∧
  Product.price <$> Sample.products_repriced !! 10%nat = Some 12%float ∧
  ∃ cart',
    addToCart 3 Sample.products_repriced 1%nat 10%nat (Some 2)
      (Some Sample.cart3) = (ok ItemAdded, Some cart') ∧
    items cart' = [mkItem 10%nat 3 10%float 0; mkItem 10%nat 2 12%float 3].
Proof.
  split; [reflexivity | split; [reflexivity|]].
  eexists. split; reflexivity.
Qed.

End PriceProtection.

(** ** Updating a product that has no line *)

Section UpdateCartItem.

Import Cart CartController.

(** On an active cart whose lines all reference a product there is,
    [updateCartItem] with a positive quantity within the stock answers 200
    and saves the cart with the items it had. *)
Lemma updateCartItem_no_dangling (db : gmap ObjectId Product.t)
    (productId : ObjectId) (q : Z) (cart : Cart.t) (product : Product.t) :
  status cart = active →
  db !! productId = Some product →
  0 < q →
  q ≤ Product.quantity product →
  no_dangling db cart →
  ∃ cart',
    updateCartItem db productId q (Some cart) = (ok ItemUpdated, Some cart') ∧
    items cart' = items cart.
Proof.
  intros Hs Hp Hq Hstock Hnd.
  unfold updateCartItem, canBeModified, Product.findById.
  rewrite bool_decide_eq_true_2 by done. simpl.
  destruct (Z.leb_spec q 0); [lia|].
  rewrite Hp.
  destruct (Z.gtb_spec q (Product.quantity product)); [lia|].
  unfold updateItemQuantity, active_cart.
  rewrite (findIndex_no_dangling db productId _ Hnd). simpl.
  eexists. split; [reflexivity | apply save_items].
Qed.

(** C10, at a cart with a line whose product was deleted.  The cart is
    active and has no line for the widget, which exists with 5 in stock;
    [updateCartItem] for 2 widgets does not report success: the lookup of
    the line throws at the line of the deleted product, and the answer is
    500 "Failed to update cart item".  Nothing is saved. *)
Theorem updateCartItem_dangling_line_fails :
  status Sample.cart_dangling = active ∧
  Sample.products !! 10%nat = Some Sample.widget ∧
  Product.quantity Sample.widget = 5 ∧
  Forall (λ item, product_id item ≠ 10%nat) (items Sample.cart_dangling) ∧
  updateCartItem Sample.products 10%nat 2 (Some Sample.cart_dangling)
  = (failure 500 FailedToUpdate, Some Sample.cart_dangling).
Proof.
  split; [reflexivity | split; [reflexivity | split; [reflexivity|]]].
  split; [|reflexivity].
  repeat constructor. discriminate.
Qed.

End UpdateCartItem.

(** ** The primary image of a product *)

Section PrimaryImage.

Import ProductImage.

Lemma setPrimaryImage_lookup (imageId productId i : ObjectId)
    (images : gmap ObjectId t) :
  (setPrimaryImage imageId productId images).1 !! i
  = (λ img,
       let img1 := if bool_decide (product_id img = productId)
                   then set_is_primary false img else img in
       if decide (imageId = i) then set_is_primary true img1 else img1)
    <$> images !! i.
Proof.
  unfold setPrimaryImage, clear_primary. simpl.
  destruct (decide (imageId = i)) as [->|Hne].
  - rewrite lookup_alter_eq, lookup_fmap.
    by destruct (images !! i).
  - rewrite lookup_alter_ne by done. rewrite lookup_fmap.
    by destruct (images !! i).
Qed.

(** C8. When [imageId] is an image of the product, after [setPrimaryImage]
    the images of the product that carry [is_primary] are exactly that one
    image, whatever the flags were before; the call returns it, flagged. *)
Theorem setPrimaryImage_exactly_one (imageId productId : ObjectId)
    (images : gmap ObjectId t) (img : t) :
  images !! imageId = Some img →
  product_id img = productId →
  primary_of productId (setPrimaryImage imageId productId images).1
    = {[ imageId := set_is_primary true img ]} ∧
  size (primary_of productId (setPrimaryImage imageId productId images).1)
    = 1%nat ∧
  (setPrimaryImage imageId productId images).2
    = Some (set_is_primary true img).
Proof.
  intros Hi Hp. subst productId.
  assert (E : primary_of (product_id img)
                (setPrimaryImage imageId (product_id img) images).1
              = {[ imageId := set_is_primary true img ]}).
  { apply map_eq. intros i. apply option_eq. intros x.
    unfold primary_of. rewrite map_lookup_filter_Some, setPrimaryImage_lookup.
    rewrite lookup_singleton_Some. simpl. split.
    - intros [Hl [Hprod Hprim]].
      destruct (images !! i) as [y|] eqn:Hy; [|discriminate Hl].
      simpl in Hl. injection Hl as <-.
      destruct (decide (imageId = i)) as [->|Hne].
      + rewrite Hi in Hy. injection Hy as ->.
        by rewrite bool_decide_eq_true_2.
      + exfalso.
        destruct (bool_decide (product_id y = product_id img)) eqn:Hb.
        * discriminate Hprim.
        * by apply bool_decide_eq_false in Hb.
    - intros [<- <-]. rewrite Hi. simpl.
      rewrite decide_True by done.
      by rewrite bool_decide_eq_true_2. }
  split; [exact E | split].
  - rewrite E. apply map_size_singleton.
  - simpl. rewrite lookup_alter_eq. unfold clear_primary.
    rewrite lookup_fmap, Hi. simpl.
    by rewrite bool_decide_eq_true_2.
Qed.

(** C8 where two of three images of product 10 are flagged primary and the
    third is designated. *)
Lemma setPrimaryImage_exactly_one_witness :
  size (primary_of 10%nat
          (setPrimaryImage 3%nat 10%nat Sample.images).1) = 1%nat.
Proof.
  apply (setPrimaryImage_exactly_one 3%nat 10%nat Sample.images
           (mk 10%nat "c.png" "c" true false 2));
    reflexivity.
Defined.

End PrimaryImage.

(** ** Slugs *)

Section SlugChars.

Import Slug.

(** Cases over the 256 code units. *)
Ltac by_code_units c :=
  destruct c as [[] [] [] [] [] [] [] []]; vm_compute; intros; congruence.

Lemma lower_char_not_upper (c : ascii) : is_upper (lower_char c) = false.
Proof. by_code_units c. Qed.

Lemma lower_char_slug_char (c : ascii) :
  slug_char c = true → lower_char c = c.
Proof. by_code_units c. Qed.

Lemma slug_char_not_space (c : ascii) : slug_char c = true → is_space c = false.
Proof. by_code_units c. Qed.

Lemma kept_char_slug_char (c : ascii) :
  is_upper c = false → is_alnum c || is_space c = true → is_space c = false →
  slug_char c = true.
Proof. by_code_units c. Qed.

Lemma digit_slug_char (c : ascii) : is_digit c = true → slug_char c = true.
Proof. unfold slug_char. intros ->. by rewrite orb_true_r. Qed.

Lemma all_chars_app (P : ascii → bool) (s1 s2 : string) :
  all_chars P (s1 +:+ s2) = all_chars P s1 && all_chars P s2.
Proof.
  induction s1 as [|c s1 IH]; simpl; [done|]. by rewrite IH, andb_assoc.
Qed.

Lemma all_chars_impl (P Q : ascii → bool) (s : string) :
  (∀ c, P c = true → Q c = true) →
  all_chars P s = true → all_chars Q s = true.
Proof.
  intros HPQ. induction s as [|c s IH]; simpl; [done|].
  intros [Hc Hs]%andb_true_iff. by rewrite (HPQ c Hc), IH.
Qed.

Lemma toLowerCase_not_upper (s : string) :
  all_chars (λ c, negb (is_upper c)) (toLowerCase s) = true.
Proof.
  induction s as [|c s IH]; simpl; [done|].
  by rewrite lower_char_not_upper, IH.
Qed.

Lemma remove_special_kept (s : string) :
  all_chars (λ c, negb (is_upper c)) s = true →
  all_chars (λ c, negb (is_upper c) && (is_alnum c || is_space c))
    (remove_special s) = true.
Proof.
  induction s as [|c s IH]; simpl; [done|].
  intros [Hc Hs]%andb_true_iff.
  destruct (is_alnum c || is_space c) eqn:Hk; simpl; [|by apply IH].
  by rewrite Hc, Hk, IH.
Qed.

Lemma hyphenate_slug_chars (in_run : bool) (s : string) :
  all_chars (λ c, negb (is_upper c) && (is_alnum c || is_space c)) s = true →
  all_chars slug_char (hyphenate in_run s) = true.
Proof.
  revert in_run. induction s as [|c s IH]; intros in_run; simpl; [done|].
  intros [[Hu Hk]%andb_true_iff Hs]%andb_true_iff.
  destruct (is_space c) eqn:Hsp.
  - destruct in_run; simpl; by apply IH.
  - simpl. rewrite IH by done.
    rewrite kept_char_slug_char; [done | by apply negb_true_iff | | done].
    by rewrite Hsp, orb_false_r in *.
Qed.

Lemma trimStart_slug_chars (s : string) :
  all_chars slug_char s = true → trimStart s = s.
Proof.
  destruct s as [|c s]; simpl; [done|].
  intros [Hc _]%andb_true_iff. by rewrite slug_char_not_space.
Qed.

Lemma trimEnd_slug_chars (s : string) :
  all_chars slug_char s = true → trimEnd s = s.
Proof.
  induction s as [|c s IH]; simpl; [done|].
  intros [Hc Hs]%andb_true_iff. rewrite IH by done.
  destruct s; [|done]. by rewrite slug_char_not_space.
Qed.

Lemma trim_slug_chars (s : string) : all_chars slug_char s = true → trim s = s.
Proof.
  intros H. unfold trim. rewrite trimStart_slug_chars by done.
  by apply trimEnd_slug_chars.
Qed.

Lemma toLowerCase_slug_chars (s : string) :
  all_chars slug_char s = true → toLowerCase s = s.
Proof.
  induction s as [|c s IH]; simpl; [done|].
  intros [Hc Hs]%andb_true_iff. by rewrite lower_char_slug_char, IH.
Qed.

(** The base slug is made of [a-z], [0-9] and "-". *)
Lemma baseSlug_of_slug_chars (name : string) :
  all_chars slug_char (baseSlug_of name) = true.
Proof.
  unfold baseSlug_of.
  assert (H : all_chars slug_char
                (hyphenate false (remove_special (toLowerCase name))) = true).
  { apply hyphenate_slug_chars, remove_special_kept, toLowerCase_not_upper. }
  by rewrite trim_slug_chars.
Qed.

(** The setters of the path leave such a slug as it is. *)
Lemma slug_setter_slug_chars (s : string) :
  all_chars slug_char s = true → slug_setter s = s.
Proof.
  intros H. unfold slug_setter. rewrite toLowerCase_slug_chars by done.
  by apply trim_slug_chars.
Qed.

Lemma string_of_uint_digits (d : Decimal.uint) :
  all_chars is_digit (NilEmpty.string_of_uint d) = true.
Proof. induction d; simpl; done. Qed.

Lemma decimal_inj (n m : nat) : decimal n = decimal m → n = m.
Proof.
  unfold decimal. intros H.
  assert (E : Some (Nat.to_uint n) = Some (Nat.to_uint m)).
  { by rewrite <- !NilEmpty.usu, H. }
  injection E as E.
  by rewrite <- (Unsigned.of_to n), <- (Unsigned.of_to m), E.
Qed.

Lemma candidate_slug_chars (baseSlug : string) (k : nat) :
  all_chars slug_char baseSlug = true →
  all_chars slug_char (candidate baseSlug k) = true.
Proof.
  intros Hb. destruct k as [|k]; simpl; [done|].
  rewrite all_chars_app, Hb. simpl.
  apply (all_chars_impl is_digit); [apply digit_slug_char|].
  apply string_of_uint_digits.
Qed.

Lemma candidate_inj (baseSlug : string) (i k : nat) :
  candidate baseSlug i = candidate baseSlug k → i = k.
Proof.
  assert (Hnil : ∀ s t, s = s +:+ String "-" t → False).
  { intros s t H. induction s as [|c s IH]; simpl in H; [discriminate|].
    injection H as H. auto. }
  destruct i as [|i], k as [|k]; simpl; intros H.
  - done.
  - by apply Hnil in H.
  - symmetry in H. by apply Hnil in H.
  - apply (inj (String.append baseSlug)) in H.
    injection H as H. by apply decimal_inj.
Qed.

End SlugChars.

Section SlugUnique.

Import Slug.

Lemma findOne_None (coll : list Doc) (s : string) (self : ObjectId) :
  findOne coll s self = None ↔
  ∀ d, d ∈ coll → slug d = Some s → _id d = self.
Proof.
  unfold findOne. rewrite fmap_None, list_find_None, Forall_forall.
  split; intros H d Hd.
  - intros Hs. destruct (decide (_id d = self)) as [|Hne]; [done|].
    by destruct (H d Hd).
  - intros [Hs Hne]. by apply Hne, H.
Qed.

Lemma findOne_taken (coll : list Doc) (s : string) (self : ObjectId) :
  findOne coll s self ≠ None → Some s ∈ slug <$> coll.
Proof.
  unfold findOne. intros H.
  destruct (list_find _ coll) as [[i d]|] eqn:Hf; [|done].
  apply list_find_Some in Hf as (Hi & [Hs _] & _).
  apply list_elem_of_fmap. exists d. split; [done|].
  by apply list_elem_of_lookup_2 in Hi.
Qed.

(** What the loop returns is free, and every slug tried before it was
    taken. *)
Lemma resolve_result (fuel : nat) (coll : list Doc) (self : ObjectId)
    (baseSlug : string) (j : nat) (s : string) :
  resolve fuel coll self baseSlug (candidate baseSlug j) (S j) = Some s →
  findOne coll s self = None ∧
  ∃ k, (j ≤ k)%nat ∧ s = candidate baseSlug k ∧
       ∀ i, (j ≤ i < k)%nat → findOne coll (candidate baseSlug i) self ≠ None.
Proof.
  revert j. induction fuel as [|fuel IH]; intros j; simpl;
    destruct (findOne coll (candidate baseSlug j) self) eqn:E;
    intros H; simplify_eq.
  - split; [done|]. exists j. split; [lia|]. split; [done|]. intros i; lia.
  - apply (IH (S j)) in H as (Hfree & k & Hk & -> & Htaken).
    split; [done|]. exists k. split; [lia|]. split; [done|].
    intros i Hi. destruct (decide (i = j)) as [->|]; [by rewrite E|].
    apply Htaken. lia.
  - split; [done|]. exists j. split; [lia|]. split; [done|]. intros i; lia.
Qed.

(** The loop runs out of turns only if every slug it tried was taken. *)
Lemma resolve_exhausted (fuel : nat) (coll : list Doc) (self : ObjectId)
    (baseSlug : string) (j : nat) :
  resolve fuel coll self baseSlug (candidate baseSlug j) (S j) = None →
  ∀ i, (j ≤ i ≤ j + fuel)%nat →
       findOne coll (candidate baseSlug i) self ≠ None.
Proof.
  revert j. induction fuel as [|fuel IH]; intros j; simpl;
    destruct (findOne coll (candidate baseSlug j) self) eqn:E;
    intros H i Hi; simplify_eq.
  - assert (i = j) as -> by lia. by rewrite E.
  - destruct (decide (i = j)) as [->|]; [by rewrite E|].
    apply (IH (S j)); [done | lia].
Qed.

(** No more slugs can be taken than the collection has documents. *)
Lemma taken_candidates_bound (coll : list Doc) (self : ObjectId)
    (baseSlug : string) (n : nat) :
  (∀ i, (i ≤ n)%nat → findOne coll (candidate baseSlug i) self ≠ None) →
  (n < length coll)%nat.
Proof.
  intros Htaken.
  pose (l := (λ i, Some (candidate baseSlug i)) <$> seq 0 (S n)).
  assert (Hnd : NoDup l).
  { apply NoDup_fmap_2; [|apply NoDup_seq].
    intros i k H. injection H as H. by apply candidate_inj in H. }
  assert (Hsub : l ⊆+ slug <$> coll).
  { apply NoDup_submseteq; [done|]. intros x Hx.
    apply list_elem_of_fmap in Hx as (i & -> & Hi).
    apply elem_of_seq in Hi. apply findOne_taken with self, Htaken. lia. }
  apply submseteq_length in Hsub.
  unfold l in Hsub. rewrite !length_fmap, length_seq in Hsub. lia.
Qed.

(** With one turn per document the loop returns. *)
Lemma resolve_returns (coll : list Doc) (self : ObjectId) (baseSlug : string) :
  ∃ s, resolve (length coll) coll self baseSlug baseSlug 1 = Some s.
Proof.
  destruct (resolve (length coll) coll self baseSlug baseSlug 1) as [s|] eqn:E;
    [by eexists|].
  pose proof (resolve_exhausted (length coll) coll self baseSlug 0 E) as H.
  assert (length coll < length coll)%nat; [|lia].
  apply (taken_candidates_bound coll self baseSlug). intros i Hi. apply H. lia.
Qed.

(** C9. A category named "Foo!" saved while a category "Foo" holds the slug
    "foo" gets the slug "foo" as well: the hook of Category derives the base
    slug and appends no suffix, so the slug is not unique among categories. *)
Lemma category_slug_collides :
  ¬ Stated.slug_made_unique Category [Sample.foo] Sample.foo_bang.
Proof.
  intros (d' & H & Hu). vm_compute in H. injection H as <-.
  apply (Hu Sample.foo); [apply list_elem_of_here | discriminate | reflexivity].
Qed.

(** The slug a save derives.  Saving a new or renamed entity derives from
    its display name a slug made of [a-z], [0-9] and "-".  For Product,
    Group, Service and Blog the slug is the first of base, base-1, base-2,
    ... that no other entity of the type holds, so it is unique among them;
    for Category it is the base slug, with no suffix.  Saving without a
    change of name leaves the slug alone. *)
Theorem pre_save_slug (e : Entity) (coll : list Doc) (d : Doc) :
  (∃ s,
     pre_save e coll true d = Some (mkDoc (_id d) (name d) (Some s)) ∧
     all_chars slug_char s = true ∧
     match e with
     | Category => s = baseSlug_of (name d)
     | Product | Group | Service | Blog =>
         unique_for coll (mkDoc (_id d) (name d) (Some s)) ∧
         ∃ k, s = candidate (baseSlug_of (name d)) k ∧
              ∀ i, (i < k)%nat →
                   findOne coll (candidate (baseSlug_of (name d)) i) (_id d)
                   ≠ None
     end) ∧
  pre_save e coll false d = Some d.
Proof.
  split; [|by destruct e].
  pose proof (baseSlug_of_slug_chars (name d)) as Hbase.
  assert (Hsuffix :
    ∃ s, pre_save_suffixing coll true d
           = Some (mkDoc (_id d) (name d) (Some s)) ∧
         all_chars slug_char s = true ∧
         unique_for coll (mkDoc (_id d) (name d) (Some s)) ∧
         ∃ k, s = candidate (baseSlug_of (name d)) k ∧
              ∀ i, (i < k)%nat →
                   findOne coll (candidate (baseSlug_of (name d)) i) (_id d)
                   ≠ None).
  { unfold pre_save_suffixing.
    destruct (resolve_returns coll (_id d) (baseSlug_of (name d))) as [s Hs].
    rewrite Hs.
    apply (resolve_result _ _ _ _ 0) in Hs as (Hfree & k & _ & -> & Htaken).
    pose proof (candidate_slug_chars _ k Hbase) as Hk.
    exists (candidate (baseSlug_of (name d)) k).
    unfold set_slug. rewrite slug_setter_slug_chars by done.
    split; [done|]. split; [done|]. split.
    - intros d' Hd' Hne Heq. simpl in *.
      by apply Hne, (proj1 (findOne_None _ _ _) Hfree d').
    - exists k. split; [done|]. intros i Hi. apply Htaken. lia. }
  destruct e; try exact Hsuffix.
  exists (baseSlug_of (name d)). simpl. unfold set_slug.
  by rewrite slug_setter_slug_chars.
Qed.

(** A product named "Foo!" saved while "foo" and "foo-1" are held gets
    "foo-2". *)
Example product_slug_gets_suffix :
  pre_save Product
    [Sample.foo; mkDoc 3%nat "Foo 1" (Some "foo-1")] true Sample.foo_bang
  = Some (mkDoc 2%nat "Foo!" (Some "foo-2")).
Proof. reflexivity. Qed.

Example baseSlug_of_sample :
  baseSlug_of "  Hello,   World  2! " = "-hello-world-2-".
Proof. reflexivity. Qed.

End SlugUnique.

(** * Further properties of the code *)

(** ** Lines of a cart *)

Section CartLines.

Import Cart CartController.
Import Stated.

(** X2. A successful [addToCart] saves the lines the cart had, as they
    were, followed by one new line: the product, the requested quantity,
    which the stock covers, the price of the product at that moment, the
    instant of the call. *)
Theorem addToCart_appends_line (now : Date) (db : gmap ObjectId Product.t)
    (userId productId : ObjectId) (q : Z) (found : option Cart.t)
    (cart' : Cart.t) (r : Response) :
  addToCart now db userId productId (Some q) found = (r, Some cart') →
  Http.success r = true →
  ∃ product,
    db !! productId = Some product ∧
    q ≤ Product.quantity product ∧
    items cart'
    = from_option items [] found
      ++ [mkItem productId q (Product.price product) now].
Proof.
  unfold addToCart, Product.findById. intros H Hs.
  destruct (db !! productId) as [product|]; [|by simplify_eq].
  exists product. split; [done|]. simpl in H.
  destruct (negb (Product.active product)); [by simplify_eq|].
  destruct (Product.is_expired now product); [by simplify_eq|].
  destruct (Z.ltb_spec (Product.quantity product) q) as [|Hq];
    [by simplify_eq|].
  split; [done|].
  destruct found as [cart|]; simpl in H.
  - unfold currentQuantityInCart, active_cart in H.
    destruct (find (populated db) productId (items cart)) as [existing|]
      eqn:Hf; simpl in H; [|by simplify_eq].
    apply find_populated in Hf. subst existing.
    destruct (0 + q >? Product.quantity product); [by simplify_eq|].
    unfold addItem in H.
    destruct (findIndex (populated db) productId (items cart)) as [index|]
      eqn:Hi; simpl in H; [|by simplify_eq].
    apply findIndex_populated in Hi. subst index.
    simplify_eq. by rewrite save_items.
  - destruct (0 + q >? Product.quantity product); [by simplify_eq|].
    simplify_eq. by rewrite save_items.
Qed.

(** X2 where one more widget is added, at instant 4, to the cart holding a
    line of 3. *)
Lemma addToCart_appends_line_witness :
  ∃ product,
    Sample.products !! 10%nat = Some product ∧
    1 ≤ Product.quantity product ∧
    items (Sample.cart_with
             [mkItem 10%nat 3 10%float 0; mkItem 10%nat 1 10%float 4])
    = from_option items [] (Some Sample.cart3)
      ++ [mkItem 10%nat 1 (Product.price product) 4].
Proof.
  apply (addToCart_appends_line 4 Sample.products 1%nat 10%nat 1
           (Some Sample.cart3) _ (ok ItemAdded)); reflexivity.
Defined.

(** X24. No operation on a cart rewrites a line the cart holds.  A schema
    method that persists (add, update, remove, clear, submit, approve,
    reject, cancel), on a cart loaded with or without its products, keeps
    the lines: it removes lines and changes quantities only, the product,
    the captured price and the date of every remaining line being those it
    had; or it is [addItem] appending one line after the lines as they
    were.  The correction of a fetch keeps the lines in the same sense. *)
Theorem lines_keep_their_price :
  (∀ how now m c c',
     mutate how now m c = Some c' →
     lines_kept (items c) (items c') ∨
     ∃ productId q price,
       m = AddItem productId q price ∧
       items c' = items c ++ [mkItem productId q price now]) ∧
  (∀ now db userId cart,
     lines_kept (items cart)
       (items (getUserCart now db userId (Some cart)).2)).
Proof.
  split.
  - apply mutate_lines_kept.
  - apply getUserCart_lines_kept.
Qed.

(** X24 at the fetch of the cart asking for 7 widgets and one gadget: the
    line of widgets is kept with another quantity, the line of the gadget
    is removed. *)
Lemma lines_keep_their_price_witness :
  lines_kept (items Sample.cart_stale)
    (items (getUserCart 2 Sample.products 1%nat (Some Sample.cart_stale)).2).
Proof. apply (proj2 lines_keep_their_price). Defined.

End CartLines.

(** ** Updating and removing lines *)

Section CartUpdate.

Import Cart CartController.

Lemma removeItem_populated (db : gmap ObjectId Product.t)
    (productId : ObjectId) (c c' : Cart.t) :
  removeItem (populated db) productId c = Some c' → items c' = items c.
Proof.
  unfold removeItem. intros H.
  destruct (filter_others (populated db) productId (items c)) as [kept|]
    eqn:Hf; simpl in H; simplify_eq.
  apply filter_others_populated in Hf. subst kept. by rewrite save_items.
Qed.

Lemma updateItemQuantity_populated (db : gmap ObjectId Product.t)
    (productId : ObjectId) (q : Z) (c c' : Cart.t) :
  updateItemQuantity (populated db) productId q c = Some c' →
  items c' = items c.
Proof.
  unfold updateItemQuantity. intros H.
  destruct (findIndex (populated db) productId (items c)) as [index|]
    eqn:Hi; simpl in H; [|done].
  apply findIndex_populated in Hi. subst index. simplify_eq.
  apply save_items.
Qed.

(** X3. [updateCartItem] and [removeFromCart] change no line of the cart:
    whatever they are asked and whatever they answer, the cart after the
    call has the items it had.  The cart they load is populated, so that no
    line is found for the product.  On an active cart whose lines all
    reference a product there is, [removeFromCart] answers 200 "Item
    removed from cart successfully" all the same. *)
Theorem update_and_remove_change_no_line (db : gmap ObjectId Product.t)
    (productId : ObjectId) (q : Z) (cart : Cart.t) :
  (∃ cart', (updateCartItem db productId q (Some cart)).2 = Some cart' ∧
            items cart' = items cart) ∧
  (∃ cart', (removeFromCart db productId (Some cart)).2 = Some cart' ∧
            items cart' = items cart) ∧
  (status cart = active → no_dangling db cart →
   (removeFromCart db productId (Some cart)).1 = ok ItemRemovedSuccessfully).
Proof.
  split; [|split].
  - unfold updateCartItem, active_cart.
    repeat case_match; simpl; eexists; (split; [reflexivity|]); try done.
    + by eapply removeItem_populated.
    + by eapply updateItemQuantity_populated.
  - unfold removeFromCart, active_cart.
    repeat case_match; simpl; eexists; (split; [reflexivity|]); try done.
    by eapply removeItem_populated.
  - intros Hs Hnd. unfold removeFromCart, canBeModified, active_cart.
    rewrite bool_decide_eq_true_2 by done. simpl.
    unfold removeItem. by rewrite (filter_others_no_dangling db _ _ Hnd).
Qed.

(** X3 at the cart holding a line of 3 widgets, asked to remove the
    widget: the answer is a success and the line is still there. *)
Lemma update_and_remove_change_no_line_witness :
  (removeFromCart Sample.products 10%nat (Some Sample.cart3)).1
  = ok ItemRemovedSuccessfully ∧
  ∃ cart', (removeFromCart Sample.products 10%nat (Some Sample.cart3)).2
           = Some cart' ∧
           items cart' = items Sample.cart3.
Proof.
  destruct (update_and_remove_change_no_line Sample.products 10%nat 0
              Sample.cart3) as (_ & Hitems & Hok).
  split; [|exact Hitems].
  apply Hok; [reflexivity|].
  repeat constructor. by exists Sample.widget.
Defined.

End CartUpdate.

(** ** Failures and moves of the status *)

Section CartStatus.

Import Cart CartController.

(** X4. A cart controller that answers [success: false] has written
    nothing: the document is the one its query returned. *)
Theorem cart_failure_writes_nothing :
  (∀ now db userId productId q found r after,
     addToCart now db userId productId q found = (r, after) →
     Http.success r = false → after = found) ∧
  (∀ db productId q found r after,
     updateCartItem db productId q found = (r, after) →
     Http.success r = false → after = found) ∧
  (∀ db productId found r after,
     removeFromCart db productId found = (r, after) →
     Http.success r = false → after = found) ∧
  (∀ found r after,
     CartController.clearCart found = (r, after) →
     Http.success r = false → after = found) ∧
  (∀ now db notes found r after,
     submitCart now db notes found = (r, after) →
     Http.success r = false → after = found) ∧
  (∀ userId found r after,
     CartController.cancelCart userId found = (r, after) →
     Http.success r = false → after = found) ∧
  (∀ now db adminId notes found r after,
     CartController.approveCart now db adminId notes found = (r, after) →
     Http.success r = false → after = found) ∧
  (∀ now adminId notes found r after,
     CartController.rejectCart now adminId notes found = (r, after) →
     Http.success r = false → after = found).
Proof.
  repeat split; intros;
    match goal with
    | H : _ = (_, _), Hs : Http.success _ = false |- _ =>
        unfold addToCart, updateCartItem, removeFromCart,
          CartController.clearCart, submitCart, CartController.cancelCart,
          CartController.approveCart, CartController.rejectCart in H;
        repeat case_match; simplify_eq; try done; discriminate Hs
    end.
Qed.

Lemma cart_failure_writes_nothing_witness :
  (submitCart 2 Sample.products None (Some Sample.cart_mixed)).2
  = Some Sample.cart_mixed.
Proof.
  eapply (proj1 (proj2 (proj2 (proj2 (proj2 cart_failure_writes_nothing))))).
  - apply surjective_pairing.
  - reflexivity.
Defined.

Lemma keeps_status (c c' : Cart.t) :
  status c' = status c → keeps_or_moves c (Some c').
Proof. intros H. exists c'. split; [done | by left]. Qed.

Lemma mutate_status (how : Loaded) (now : Date) (m : Mutation)
    (c c' : Cart.t) :
  mutate how now m c = Some c' →
  status c'
  = match m with
    | SubmitForApproval _ => pending
    | ApproveCart _ _ => approved
    | RejectCart _ _ => rejected
    | CancelCart => cancelled
    | _ => status c
    end.
Proof.
  destruct m;
    unfold mutate, addItem, updateItemQuantity, removeItem, Cart.clearCart,
      submitForApproval, Cart.approveCart, Cart.rejectCart, Cart.cancelCart;
    intros H; simplify_option_eq; repeat case_match; simplify_eq;
    by rewrite ?save_status.
Qed.

(** Closes [keeps_or_moves c (Some c')] where [c'] is [c] after a schema
    method that leaves the status alone. *)
Ltac kept_by_method :=
  apply keeps_status;
  match goal with
  | H : addItem ?how ?n ?p ?k ?pr ?c = Some ?c' |- status ?c' = _ =>
      exact (mutate_status how n (AddItem p k pr) c c' H)
  | H : removeItem ?how ?p ?c = Some ?c' |- status ?c' = _ =>
      exact (mutate_status how 0 (RemoveItem p) c c' H)
  | H : updateItemQuantity ?how ?p ?k ?c = Some ?c' |- status ?c' = _ =>
      exact (mutate_status how 0 (UpdateItemQuantity p k) c c' H)
  | |- status (Cart.clearCart ?c) = _ =>
      exact (mutate_status stored 0 ClearCart c _ eq_refl)
  end.

(** X5. Whatever a cart controller answers, the status of the cart it was
    given is kept or moved along active → pending, pending → approved,
    pending → rejected, or to cancelled from a status other than approved
    and cancelled; so no controller changes the status of an approved or a
    cancelled cart. *)
Theorem cart_status_moves (now : Date) (db : gmap ObjectId Product.t)
    (userId productId : ObjectId) (q : Z) (notes : option string)
    (cart : Cart.t) :
  keeps_or_moves cart
    (addToCart now db userId productId (Some q) (Some cart)).2
  ∧ keeps_or_moves cart (Some (getUserCart now db userId (Some cart)).2)
  ∧ keeps_or_moves cart (updateCartItem db productId q (Some cart)).2
  ∧ keeps_or_moves cart (removeFromCart db productId (Some cart)).2
  ∧ keeps_or_moves cart (CartController.clearCart (Some cart)).2
  ∧ keeps_or_moves cart (submitCart now db notes (Some cart)).2
  ∧ keeps_or_moves cart (CartController.cancelCart userId (Some cart)).2
  ∧ keeps_or_moves cart
      (CartController.approveCart now db userId notes (Some cart)).2
  ∧ keeps_or_moves cart
      (CartController.rejectCart now userId notes (Some cart)).2
  ∧ (status cart = approved ∨ status cart = cancelled →
     ∀ c', keeps_or_moves cart (Some c') → status c' = status cart).
Proof.
  repeat split.
  - unfold addToCart. repeat case_match; simplify_eq; simpl;
      first [by apply keeps_status | kept_by_method].
  - unfold getUserCart.
    destruct (fold_left _ _ _) as [validItems [|]]; simpl;
      apply keeps_status; [by rewrite save_status | done].
  - unfold updateCartItem. repeat case_match; simpl;
      first [by apply keeps_status | kept_by_method].
  - unfold removeFromCart. repeat case_match; simpl;
      first [by apply keeps_status | kept_by_method].
  - unfold CartController.clearCart. repeat case_match; simpl;
      first [by apply keeps_status | kept_by_method].
  - unfold submitCart, canBeModified.
    repeat case_match; simpl; try by apply keeps_status.
    eexists. split; [done|]. right.
    rewrite (mutate_status stored now (SubmitForApproval _) cart _ eq_refl).
    match goal with
    | H : negb (bool_decide (status cart = active)) = false |- _ =>
        apply negb_false_iff, bool_decide_eq_true in H; rewrite H
    end.
    constructor.
  - unfold CartController.cancelCart.
    repeat case_match; simpl; try by apply keeps_status.
    eexists. split; [done|]. right.
    rewrite (mutate_status stored 0 CancelCart cart _ eq_refl).
    constructor; by eapply bool_decide_eq_false.
  - unfold CartController.approveCart, canBeProcessed.
    repeat case_match; simpl; try by apply keeps_status.
    eexists. split; [done|]. right.
    match goal with
    | H : Cart.approveCart ?n ?a ?s cart = Some ?c' |- _ =>
        rewrite (mutate_status stored n (ApproveCart a s) cart c' H)
    end.
    match goal with
    | H : negb (bool_decide (status cart = pending)) = false |- _ =>
        apply negb_false_iff, bool_decide_eq_true in H; rewrite H
    end.
    constructor.
  - unfold CartController.rejectCart, canBeProcessed.
    repeat case_match; simpl; try by apply keeps_status.
    eexists. split; [done|]. right.
    match goal with
    | H : Cart.rejectCart ?n ?a ?s cart = Some ?c' |- _ =>
        rewrite (mutate_status stored n (RejectCart a s) cart c' H)
    end.
    match goal with
    | H : negb (bool_decide (status cart = pending)) = false |- _ =>
        apply negb_false_iff, bool_decide_eq_true in H; rewrite H
    end.
    constructor.
  - intros Hterminal c' (c'' & E & [Hsame | Hmove]); simplify_eq; [done|].
    exfalso. destruct Hterminal as [Ht | Ht]; rewrite Ht in Hmove;
      inversion Hmove; congruence.
Qed.

End CartStatus.

(** ** Rejecting and cancelling *)

Section CartDecisions.

Import Cart CartController.

(** X6. [rejectCart] refuses a cart that is not pending and leaves it as it
    is.  For a pending cart the admin notes, trimmed by the setter of their
    path, decide: with at most 500 characters the cart is saved as rejected
    with the admin, the trimmed notes and the instant recorded, its items
    and its approval fields untouched, its totals summed from the items;
    with more than 500 characters, which the route lets through up to 1000,
    saving throws, the answer is 500 "Failed to reject cart" and the cart
    stays as it was. *)
Theorem rejectCart_pending_only (now : Date) (adminId : ObjectId)
    (body_admin_notes : option string) (cart : Cart.t) :
  let trimmed := Slug.trim (default "" body_admin_notes) in
  (status cart ≠ pending →
     CartController.rejectCart now adminId body_admin_notes (Some cart)
     = (failure 400 CannotBeProcessed, Some cart)) ∧
  (status cart = pending → (String.length trimmed ≤ 500)%nat →
     ∃ cart',
       CartController.rejectCart now adminId body_admin_notes (Some cart)
       = (ok CartRejected, Some cart') ∧
       status cart' = rejected ∧
       rejected_by cart' = Some adminId ∧
       rejected_at cart' = Some now ∧
       admin_notes cart' = Some trimmed ∧
       items cart' = items cart ∧
       approved_by cart' = approved_by cart ∧
       approved_at cart' = approved_at cart ∧
       totals_ok cart') ∧
  (status cart = pending → (500 < String.length trimmed)%nat →
     CartController.rejectCart now adminId body_admin_notes (Some cart)
     = (failure 500 FailedToReject, Some cart)).
Proof.
  intros trimmed.
  unfold CartController.rejectCart, canBeProcessed, Cart.rejectCart,
    admin_notes_valid, admin_notes_setter.
  fold trimmed.
  split; [|split]; intros Hs.
  - by rewrite bool_decide_eq_false_2.
  - intros Hlen. rewrite bool_decide_eq_true_2 by done. simpl.
    rewrite bool_decide_eq_true_2 by done.
    eexists. split; [reflexivity|].
    rewrite save_status, save_items.
    repeat split; try apply save_totals_ok.
    all: unfold save, pre_save; simpl; by destruct (items cart).
  - intros Hlen. rewrite bool_decide_eq_true_2 by done. simpl.
    rewrite bool_decide_eq_false_2 by lia. done.
Qed.

(** X6 at the pending cart of user 1, rejected by admin 99 with the notes
    " no ". *)
Lemma rejectCart_pending_only_witness :
  ∃ cart',
    CartController.rejectCart 9 99%nat (Some " no ")
      (Some Sample.cart_pending)
    = (ok CartRejected, Some cart') ∧
    status cart' = rejected ∧
    rejected_by cart' = Some 99%nat ∧
    rejected_at cart' = Some 9 ∧
    admin_notes cart' = Some "no" ∧
    items cart' = items Sample.cart_pending ∧
    approved_by cart' = approved_by Sample.cart_pending ∧
    approved_at cart' = approved_at Sample.cart_pending ∧
    totals_ok cart'.
Proof.
  apply (rejectCart_pending_only 9 99%nat (Some " no ") Sample.cart_pending).
  - reflexivity.
  - vm_compute. lia.
Defined.


End CartDecisions.

(** ** What a fetch leaves *)

Section FetchedCart.

Import Cart CartController.

(** A product that passes the check of the fetch is active as stored. *)
Lemma active_under_projection (p : Product.t) :
  Product.active (Product.select active_cart_fields p) = true →
  Product.is_active p = Some true.
Proof.
  unfold Product.active, Product.select. simpl.
  destruct (Product.is_active p) as [[|]|]; done.
Qed.

Lemma fold_revalidate_purchasable (now : Date) (db : gmap ObjectId Product.t)
    (l validItems : list Item) (hasChanges : bool) :
  Forall (purchasable now db) validItems →
  Forall (purchasable now db)
    (fold_left (revalidate now db) l (validItems, hasChanges)).1.
Proof.
  revert validItems hasChanges.
  induction l as [|item l IH]; intros validItems hasChanges Hv; [done|].
  change (fold_left (revalidate now db) (item :: l) (validItems, hasChanges))
    with (fold_left (revalidate now db) l
            (revalidate now db (validItems, hasChanges) item)).
  unfold revalidate, Product.populate.
  destruct (db !! product_id item) as [p|] eqn:Hp; simpl; [|by apply IH].
  destruct (Product.active _ && negb _) eqn:Hok; [|by apply IH].
  apply andb_true_iff in Hok as [Hact Hexp].
  apply active_under_projection in Hact.
  apply negb_true_iff in Hexp.
  change (Product.is_expired now (Product.select active_cart_fields p))
    with (Product.is_expired now p) in Hexp.
  destruct (Z.leb_spec (quantity item) (Product.quantity p)).
  - apply IH, Forall_app. split; [done|]. repeat constructor.
    by exists p.
  - destruct (Z.gtb_spec (Product.quantity p) 0); [|by apply IH].
    apply IH, Forall_app. split; [done|]. repeat constructor.
    exists p. simpl. split; [done | split; [done | split; [done | lia]]].
Qed.

Lemma fold_revalidate_unchanged (now : Date) (db : gmap ObjectId Product.t)
    (l validItems : list Item) (hasChanges : bool) :
  Forall (purchasable now db) l →
  fold_left (revalidate now db) l (validItems, hasChanges)
  = (validItems ++ l, hasChanges).
Proof.
  intros Hl. revert validItems.
  induction Hl as [|item l (p & Hp & Hact & Hexp & Hq) _ IH];
    intros validItems; simpl; [by rewrite app_nil_r|].
  unfold Product.populate. rewrite Hp. simpl.
  replace (Product.active (Product.select active_cart_fields p)) with true
    by (unfold Product.active; simpl; by rewrite Hact).
  change (Product.is_expired now (Product.select active_cart_fields p))
    with (Product.is_expired now p).
  rewrite Hexp. simpl.
  destruct (Z.leb_spec (quantity item) (Product.quantity p)); [|lia].
  rewrite IH. by rewrite <- app_assoc.
Qed.

Lemma revalidate_flag_stays (now : Date) (db : gmap ObjectId Product.t)
    (acc : list Item) (item : Item) :
  (revalidate now db (acc, true) item).2 = true.
Proof. unfold revalidate. by repeat case_match. Qed.

Lemma revalidate_without_change (now : Date) (db : gmap ObjectId Product.t)
    (acc : list Item) (item : Item) :
  (revalidate now db (acc, false) item).2 = false →
  revalidate now db (acc, false) item = (acc ++ [item], false).
Proof. unfold revalidate. by repeat case_match. Qed.

Lemma fold_revalidate_flag_stays (now : Date) (db : gmap ObjectId Product.t)
    (l acc : list Item) :
  (fold_left (revalidate now db) l (acc, true)).2 = true.
Proof.
  revert acc. induction l as [|item l IH]; intros acc; [done|].
  change (fold_left (revalidate now db) (item :: l) (acc, true))
    with (fold_left (revalidate now db) l
            (revalidate now db (acc, true) item)).
  pose proof (revalidate_flag_stays now db acc item) as H.
  destruct (revalidate now db (acc, true) item) as [acc' b]. simpl in H.
  subst b. apply IH.
Qed.

Lemma fold_revalidate_without_change (now : Date)
    (db : gmap ObjectId Product.t) (l acc : list Item) :
  (fold_left (revalidate now db) l (acc, false)).2 = false →
  (fold_left (revalidate now db) l (acc, false)).1 = acc ++ l.
Proof.
  revert acc. induction l as [|item l IH]; intros acc;
    [by rewrite app_nil_r|].
  change (fold_left (revalidate now db) (item :: l) (acc, false))
    with (fold_left (revalidate now db) l
            (revalidate now db (acc, false) item)).
  pose proof (revalidate_without_change now db acc item) as H.
  destruct (revalidate now db (acc, false) item) as [acc' [|]].
  - by rewrite fold_revalidate_flag_stays.
  - specialize (H eq_refl). simplify_eq. intros Hb.
    rewrite (IH _ Hb). by rewrite <- app_assoc.
Qed.

Lemma fetched_lines_purchasable (now : Date)
    (db : gmap ObjectId Product.t) (userId : ObjectId)
    (found : option Cart.t) :
  Forall (purchasable now db) (items (getUserCart now db userId found).2).
Proof.
  unfold getUserCart.
  set (cart := match found with Some c => c | None => save (new userId) end).
  pose proof (fold_revalidate_purchasable now db (items cart) [] false
                (Forall_nil_2 _)) as Hp.
  pose proof (fold_revalidate_without_change now db (items cart) []) as He.
  destruct (fold_left (revalidate now db) (items cart) ([], false))
    as [validItems hasChanges].
  simpl in *. destruct hasChanges; [by rewrite save_items|].
  by rewrite <- (He eq_refl).
Qed.

(** X8. Whatever the cart, every line a fetch returns is purchasable at that
    instant: its product exists, is active, has not expired and has the
    line's quantity in stock. *)
Theorem getUserCart_lines_purchasable (now : Date)
    (db : gmap ObjectId Product.t) (userId : ObjectId)
    (found : option Cart.t) :
  Forall (purchasable now db) (items (getUserCart now db userId found).2).
Proof. apply fetched_lines_purchasable. Qed.

(** X9. A second fetch at the same instant, with the same products, changes
    nothing and carries no notice. *)
Theorem getUserCart_idempotent (now : Date) (db : gmap ObjectId Product.t)
    (userId : ObjectId) (found : option Cart.t) :
  let cart' := (getUserCart now db userId found).2 in
  getUserCart now db userId (Some cart') = (Http.mk 200 true None, cart').
Proof.
  intros cart'.
  pose proof (fetched_lines_purchasable now db userId found) as Hp.
  fold cart' in Hp. unfold getUserCart at 1.
  by rewrite (fold_revalidate_unchanged now db _ [] false Hp).
Qed.

End FetchedCart.

(** ** A line whose product was deleted *)

Section DanglingLine.

Import Cart CartController.

Lemma find_dangling (db : gmap ObjectId Product.t) (productId : ObjectId)
    (l : list Item) :
  ¬ Forall (λ item, is_Some (db !! product_id item)) l →
  find (populated db) productId l = None.
Proof.
  intros Hd.
  destruct (find (populated db) productId l) as [existing|] eqn:E; [|done].
  exfalso. apply Hd. clear Hd.
  induction l as [|item l IH]; [done|].
  simpl in E. destruct (db !! product_id item) as [p|] eqn:Hp; [|done].
  constructor; [by exists p | by apply IH].
Qed.

(** X25. On an active cart holding a line whose product is gone, the
    controllers that look a line up answer 500 and write nothing:
    [removeFromCart] for any product, [updateCartItem] for any product when
    the quantity is 0 or negative and for a product with the quantity in
    stock otherwise, [addToCart] for an active, unexpired product with the
    quantity in stock.  The lookup throws at the line of the deleted
    product, which only a fetch removes. *)
Theorem dangling_line_fails (db : gmap ObjectId Product.t) (cart : Cart.t) :
  status cart = active →
  ¬ no_dangling db cart →
  (∀ productId,
     removeFromCart db productId (Some cart)
     = (failure 500 FailedToRemove, Some cart)) ∧
  (∀ productId q,
     q ≤ 0 →
     updateCartItem db productId q (Some cart)
     = (failure 500 FailedToUpdate, Some cart)) ∧
  (∀ productId q product,
     0 < q → db !! productId = Some product → q ≤ Product.quantity product →
     updateCartItem db productId q (Some cart)
     = (failure 500 FailedToUpdate, Some cart)) ∧
  (∀ now userId productId q product,
     db !! productId = Some product →
     Product.is_active product = Some true →
     Product.is_expired now product = false →
     q ≤ Product.quantity product →
     addToCart now db userId productId (Some q) (Some cart)
     = (failure 500 FailedToAdd, Some cart)) ∧
  (∀ now userId,
     no_dangling db (getUserCart now db userId (Some cart)).2).
Proof.
  intros Hs Hd. unfold no_dangling in Hd.
  split; [|split; [|split; [|split]]].
  - intros productId. unfold removeFromCart, canBeModified, active_cart.
    rewrite bool_decide_eq_true_2 by done. simpl.
    unfold removeItem. by rewrite (filter_others_dangling db _ _ Hd).
  - intros productId q Hq. unfold updateCartItem, canBeModified, active_cart.
    rewrite bool_decide_eq_true_2 by done. simpl.
    destruct (Z.leb_spec q 0); [|lia].
    unfold removeItem. by rewrite (filter_others_dangling db _ _ Hd).
  - intros productId q product Hq Hp Hstock.
    unfold updateCartItem, canBeModified, active_cart, Product.findById.
    rewrite bool_decide_eq_true_2 by done. simpl.
    destruct (Z.leb_spec q 0); [lia|].
    rewrite Hp.
    destruct (Z.gtb_spec q (Product.quantity product)); [lia|].
    unfold updateItemQuantity. by rewrite (findIndex_dangling db _ _ Hd).
  - intros now userId productId q product Hp Hact Hexp Hstock.
    unfold addToCart, Product.findById, Product.active.
    rewrite Hp, Hact, Hexp. simpl.
    destruct (Z.ltb_spec (Product.quantity product) q); [lia|].
    unfold currentQuantityInCart, active_cart.
    by rewrite (find_dangling db _ _ Hd).
  - intros now userId. unfold no_dangling.
    eapply Forall_impl; [apply fetched_lines_purchasable|].
    intros item (p & Hp & _). by exists p.
Qed.

(** X25 at the cart whose only line is for the deleted product 12, asked
    to remove that line. *)
Lemma dangling_line_fails_witness :
  removeFromCart Sample.products 12%nat (Some Sample.cart_dangling)
  = (failure 500 FailedToRemove, Some Sample.cart_dangling).
Proof.
  refine (proj1 (dangling_line_fails Sample.products Sample.cart_dangling
                   _ _) 12%nat).
  - reflexivity.
  - intros H. apply Forall_cons in H as [[p Hp] _]. discriminate Hp.
Defined.

End DanglingLine.

(** ** Fetching, then submitting or approving *)

Section FetchThenSubmit.

Import Cart CartController.

Lemma getUserCart_status (now : Date) (db : gmap ObjectId Product.t)
    (userId : ObjectId) (cart : Cart.t) :
  status (getUserCart now db userId (Some cart)).2 = status cart.
Proof.
  unfold getUserCart.
  destruct (fold_left _ _ _) as [validItems [|]]; simpl; [|done].
  by rewrite save_status.
Qed.

(** X10. An active cart that still has lines after a fetch can be submitted
    at once: [submitCart] at the same instant, with the same products,
    saves it as pending with those lines. *)
Theorem fetched_cart_can_be_submitted (now : Date)
    (db : gmap ObjectId Product.t) (userId : ObjectId)
    (body_notes : option string) (cart : Cart.t) :
  status cart = active →
  items (getUserCart now db userId (Some cart)).2 ≠ [] →
  ∃ submitted,
    submitCart now db body_notes
      (Some (getUserCart now db userId (Some cart)).2)
    = (ok CartSubmitted, Some submitted) ∧
    status submitted = pending ∧
    items submitted = items (getUserCart now db userId (Some cart)).2.
Proof.
  intros Hs Hne.
  pose proof (fetched_lines_purchasable now db userId (Some cart)) as Hp.
  pose proof (getUserCart_status now db userId cart) as Hst.
  set (cart' := (getUserCart now db userId (Some cart)).2) in *.
  unfold submitCart.
  rewrite bool_decide_eq_false_2
    by (destruct (items cart'); [done | simpl; lia]).
  unfold canBeModified. rewrite bool_decide_eq_true_2 by congruence. simpl.
  rewrite (submit_check_purchasable now db _ Hp).
  eexists. split; [reflexivity|]. unfold submitForApproval.
  by rewrite save_status, save_items.
Qed.

Lemma fetched_cart_can_be_submitted_witness :
  ∃ submitted,
    submitCart 2 Sample.products None
      (Some (getUserCart 2 Sample.products 1%nat (Some Sample.cart_stale)).2)
    = (ok CartSubmitted, Some submitted) ∧
    status submitted = pending ∧
    items submitted
    = items (getUserCart 2 Sample.products 1%nat (Some Sample.cart_stale)).2.
Proof.
  apply (fetched_cart_can_be_submitted 2 Sample.products 1%nat None
           Sample.cart_stale); [reflexivity | discriminate].
Defined.

(** X11. [approveCart] approves a cart exactly when it is pending, has no
    items and the admin notes, trimmed, have at most 500 characters: with
    the projection it populates the items with, the check of the first line
    always fails. *)
Theorem approveCart_only_without_items (now : Date)
    (db : gmap ObjectId Product.t) (adminId : ObjectId)
    (body_admin_notes : option string) (cart : Cart.t) :
  Http.success
    (CartController.approveCart now db adminId body_admin_notes (Some cart)).1
  = true
  ↔ status cart = pending ∧ items cart = [] ∧
    (String.length (Slug.trim (default "" body_admin_notes)) ≤ 500)%nat.
Proof.
  unfold CartController.approveCart, canBeProcessed, Cart.approveCart,
    admin_notes_valid, admin_notes_setter.
  destruct (decide (status cart = pending)) as [Hs|Hs].
  - rewrite bool_decide_eq_true_2 by done. simpl.
    destruct (items cart) as [|item rest] eqn:E.
    + simpl. case_bool_decide; simpl; [by split|].
      split; [done | by intros (_ & _ & ?)].
    + destruct (approve_check_first_line now db item rest) as [name ->].
      simpl. split; [done | by intros (_ & ? & _)].
  - rewrite bool_decide_eq_false_2 by done. simpl.
    split; [done | by intros [? _]].
Qed.

End FetchThenSubmit.

(** ** Join records of a group *)

Section GroupJoins.

Import Group.

Lemma member_ids_alter (s : Status) (i : nat) (l : list Join) :
  user_id <$> alter (set_status s) i l = user_id <$> l.
Proof.
  revert i. induction l as [|x l IH]; intros [|i]; simpl; try done.
  f_equal. apply IH.
Qed.

(** X12. A group in which no user has two join records stays so under
    [joinGroup], [approveUserJoin] and [rejectUserJoin], whatever they
    answer. *)
Theorem one_join_record_per_user (now : Date) (userId actor : ObjectId)
    (g : t) :
  NoDup (member_ids g) →
  (∀ g', (joinGroup now userId (Some g)).2 = Some g' → NoDup (member_ids g'))
  ∧ (∀ g', (approveUserJoin actor userId (Some g)).2 = Some g' →
           NoDup (member_ids g'))
  ∧ (∀ g', (rejectUserJoin actor userId (Some g)).2 = Some g' →
           NoDup (member_ids g')).
Proof.
  intros Hnd. unfold member_ids in *. repeat split; intros g' H.
  - unfold joinGroup in H.
    destruct (negb (is_active g) || _); [by simplify_eq/=|].
    destruct (list_find _ (joined_users g)) as [[i x]|] eqn:Hf;
      [by simplify_eq/=|].
    assert (E : user_id <$> joined_users g'
                = (user_id <$> joined_users g) ++ [userId]).
    { simpl in H. repeat case_match; simplify_eq/=; by rewrite fmap_app. }
    rewrite E. apply NoDup_app. split; [done|]. split; [|apply NoDup_singleton].
    intros u Hu Hin. apply list_elem_of_singleton in Hin. subst u.
    apply list_elem_of_fmap in Hu as (join & Hid & Hjoin).
    apply list_find_None in Hf.
    by apply (proj1 (Forall_forall _ _) Hf join Hjoin).
  - unfold approveUserJoin in H.
    repeat case_match; simplify_eq/=; try done.
    by rewrite member_ids_alter.
  - unfold rejectUserJoin in H.
    repeat case_match; simplify_eq/=; try done.
    by rewrite member_ids_alter.
Qed.

Lemma one_join_record_per_user_witness :
  NoDup (member_ids
           {| name := "Club"; is_active := true; is_private := false;
              service_id := 1%nat; created_by := 1%nat; group_admin := 1%nat;
              members_count := 1;
              joined_users := [mkJoin 7%nat 0 approved member];
              approval_status := approved |}).
Proof.
  apply (proj1 (one_join_record_per_user 0 7%nat 1%nat Sample.club
                  (NoDup_nil_2 (A := ObjectId)))).
  reflexivity.
Defined.

(** X13. [joinGroup] succeeds exactly when the group is active and approved
    and the user has no join record; it then appends one record for the
    user, approved in a public group, where [members_count] becomes the
    number of approved records plus one, and pending in a private group,
    where [members_count] is left as it is. *)
Theorem joinGroup_outcome (now : Date) (userId : ObjectId) (g : t) :
  let result := joinGroup now userId (Some g) in
  (Http.success result.1 = true ↔
     is_active g = true ∧ approval_status g = approved ∧
     userId ∉ member_ids g) ∧
  (Http.success result.1 = true →
     ∃ g', result.2 = Some g' ∧
       joined_users g'
       = joined_users g
         ++ [mkJoin userId now (if is_private g then pending else approved)
               member] ∧
       members_count g'
       = if is_private g then members_count g else approved_count g + 1) ∧
  (Http.success result.1 = false → result.2 = Some g).
Proof.
  unfold joinGroup, member_ids. simpl.
  destruct (is_active g); simpl.
  2: { repeat split; try done. by intros (? & _). }
  destruct (decide (approval_status g = approved)) as [Ha|Ha].
  2: { rewrite bool_decide_eq_true_2 by done. simpl.
       repeat split; try done. by intros (_ & ? & _). }
  rewrite bool_decide_eq_false_2 by (intros ?; done).
  destruct (list_find _ (joined_users g)) as [[i x]|] eqn:Hf; simpl.
  - apply list_find_Some in Hf as (Hi & Hx & _).
    repeat split; try done. intros (_ & _ & Hnot). destruct Hnot.
    apply list_elem_of_fmap. exists x. split; [done|].
    by apply list_elem_of_lookup_2 in Hi.
  - apply list_find_None in Hf.
    assert (Hnot : userId ∉ user_id <$> joined_users g).
    { intros (join & Hid & Hjoin)%list_elem_of_fmap.
      by apply (proj1 (Forall_forall _ _) Hf join Hjoin). }
    destruct (is_private g); simpl.
    + repeat split; try done. intros _. eexists. by repeat split.
    + repeat split; try done. intros _. eexists. split; [reflexivity|].
      split; [done|]. simpl. unfold approved_count. simpl.
      rewrite filter_app, length_app. simpl. lia.
Qed.

Lemma approved_count_after_approval (i : nat) (l : list Join) (join : Join) :
  l !! i = Some join → status join ≠ approved →
  length (filter (λ j, status j = approved) (alter (set_status approved) i l))
  = S (length (filter (λ j, status j = approved) l)).
Proof.
  revert i. induction l as [|x l IH]; intros [|i] Hi Hs; simplify_eq/=.
  - rewrite !filter_cons. simpl.
    by destruct (decide (status join = approved)).
  - rewrite !filter_cons. specialize (IH i Hi Hs).
    destruct (decide (status x = approved)); simpl; by rewrite IH.
Qed.

Lemma isMember_after_approval (userId : ObjectId) (i : nat) (l : list Join)
    (join : Join) :
  l !! i = Some join → user_id join = userId →
  existsb
    (λ user, bool_decide (user_id user = userId)
             && bool_decide (status user = approved))
    (alter (set_status approved) i l) = true.
Proof.
  revert i. induction l as [|x l IH]; intros [|i] Hi Hu; simplify_eq/=.
  - by rewrite !bool_decide_eq_true_2.
  - rewrite (IH i Hi eq_refl). apply orb_true_r.
Qed.

(** X14. When [approveUserJoin] succeeds the caller is the group admin, the
    user is a member of the saved group, and [members_count] is the number
    of approved records, one more than before.  Anyone but the group admin
    is refused with 403 and the group left as it is. *)
Theorem approveUserJoin_outcome (currentUserId userId : ObjectId) (g : t) :
  let result := approveUserJoin currentUserId userId (Some g) in
  (Http.success result.1 = true →
     group_admin g = currentUserId ∧
     ∃ g', result.2 = Some g' ∧
           isMember userId g' = true ∧
           members_count g' = approved_count g' ∧
           approved_count g' = approved_count g + 1 ∧
           member_ids g' = member_ids g) ∧
  (group_admin g ≠ currentUserId →
     result = (Http.failure 403 NotAuthorized, Some g)).
Proof.
  unfold approveUserJoin. simpl. split.
  - destruct (decide (group_admin g = currentUserId)) as [Hadm|Hadm].
    2: { by rewrite bool_decide_eq_true_2. }
    rewrite bool_decide_eq_false_2 by (intros ?; done).
    destruct (list_find _ (joined_users g)) as [[i join]|] eqn:Hf; [|done].
    apply list_find_Some in Hf as (Hi & Hu & _).
    destruct (decide (status join = approved)) as [Hs|Hs].
    { by rewrite bool_decide_eq_true_2. }
    rewrite bool_decide_eq_false_2 by done. simpl. intros _.
    split; [done|]. eexists. split; [reflexivity|].
    unfold isMember, approved_count, member_ids, save. simpl.
    rewrite (isMember_after_approval userId i _ join Hi Hu).
    rewrite (approved_count_after_approval i _ join Hi Hs).
    rewrite member_ids_alter. repeat split; lia.
  - intros Hadm. by rewrite bool_decide_eq_true_2.
Qed.

Lemma approveUserJoin_outcome_witness :
  group_admin Sample.private_club_asked = 1%nat ∧
  ∃ g', (approveUserJoin 1%nat 7%nat (Some Sample.private_club_asked)).2
        = Some g' ∧
        isMember 7%nat g' = true ∧
        members_count g' = approved_count g' ∧
        approved_count g' = approved_count Sample.private_club_asked + 1 ∧
        member_ids g' = member_ids Sample.private_club_asked.
Proof.
  apply (approveUserJoin_outcome 1%nat 7%nat Sample.private_club_asked).
  reflexivity.
Defined.

Lemma not_member_after_rejection (userId : ObjectId) (i : nat)
    (l : list Join) (join : Join) :
  NoDup (user_id <$> l) →
  l !! i = Some join → user_id join = userId →
  existsb
    (λ user, bool_decide (user_id user = userId)
             && bool_decide (status user = approved))
    (alter (set_status rejected) i l) = false.
Proof.
  revert i. induction l as [|x l IH]; intros [|i] Hnd Hi Hu;
    simplify_eq/=; apply NoDup_cons in Hnd as [Hx Hnd].
  - rewrite andb_false_r. simpl.
    apply not_true_is_false. intros Hex.
    apply existsb_exists in Hex as (y & Hy & Hp).
    apply andb_true_iff in Hp as [Hp _]. apply bool_decide_eq_true in Hp.
    apply Hx. rewrite <- Hp. apply list_elem_of_fmap. exists y.
    split; [done | by apply list_elem_of_In].
  - rewrite (IH i Hnd Hi eq_refl), orb_false_r.
    rewrite bool_decide_eq_false_2; [done|].
    intros Hxu. apply Hx. rewrite Hxu. apply list_elem_of_fmap.
    exists join. split; [done | by apply list_elem_of_lookup_2 in Hi].
Qed.

(** X15. In a group with one join record per user, after [rejectUserJoin]
    succeeds the user is not a member of the saved group, and the user's
    next [joinGroup] is refused with "already been rejected", the group left
    as it is. *)
Theorem rejectUserJoin_then_join (now : Date)
    (currentUserId userId : ObjectId) (g g' : t) (r : Response) :
  NoDup (member_ids g) →
  rejectUserJoin currentUserId userId (Some g) = (r, Some g') →
  Http.success r = true →
  isMember userId g' = false ∧
  (is_active g = true → approval_status g = approved →
   joinGroup now userId (Some g')
   = (Http.failure 400 (AlreadyJoined rejected), Some g')).
Proof.
  unfold rejectUserJoin, member_ids. intros Hnd H Hs.
  destruct (bool_decide (group_admin g ≠ currentUserId));
    [simplify_eq; discriminate Hs|].
  destruct (list_find _ (joined_users g)) as [[i join]|] eqn:Hf;
    [|simplify_eq; discriminate Hs].
  simplify_eq. unfold save.
  pose proof Hf as Hfind.
  apply list_find_Some in Hf as (Hi & Hu & Hfirst). split.
  - unfold isMember. simpl.
    by apply (not_member_after_rejection userId i _ join).
  - intros Hact Happ. unfold joinGroup. simpl. rewrite Hact, Happ. simpl.
    assert (list_find (λ j, user_id j = userId)
              (alter (set_status rejected) i (joined_users g))
            = Some (i, set_status rejected join)) as ->; [|done].
    apply list_find_Some. split; [|split].
    + by rewrite list_lookup_alter_eq, Hi.
    + done.
    + intros j y Hj Hlt. rewrite list_lookup_alter_ne in Hj by lia.
      by apply (Hfirst j y).
Qed.

Lemma rejectUserJoin_then_join_witness :
  isMember 7%nat
    (set_joined_users [mkJoin 7%nat 0 rejected member]
       Sample.private_club_asked) = false.
Proof.
  apply (rejectUserJoin_then_join 5 1%nat 7%nat Sample.private_club_asked _
           (Http.ok UserRejected));
    [repeat constructor; apply not_elem_of_nil | reflexivity | reflexivity].
Defined.

End GroupJoins.

(** ** Stock of a product *)

Section ProductStock.

Import Product.

Lemma set_quantity_id (p : t) : set_quantity (quantity p) p = p.
Proof. by destruct p. Qed.

(** X16. [reduceQuantity] throws exactly when the stock is below the amount,
    so always for a positive amount of a product that is not in stock, and
    otherwise leaves a stock that is not negative; taking out what
    [addQuantity] has just put into a stock that is not negative gives the
    product back. *)
Theorem reduceQuantity_never_negative (amount : Z) (p : t) :
  (reduceQuantity amount p = None ↔ quantity p < amount) ∧
  (0 < amount → isInStock p = false → reduceQuantity amount p = None) ∧
  (∀ p', reduceQuantity amount p = Some p' →
         quantity p' = quantity p - amount ∧ 0 ≤ quantity p') ∧
  (0 ≤ quantity p → reduceQuantity amount (addQuantity amount p) = Some p).
Proof.
  unfold reduceQuantity, addQuantity, isInStock. split; [|split; [|split]].
  2: { intros Ha Hs. destruct (Z.gtb_spec (quantity p) 0); [done|].
       destruct (Z.geb_spec (quantity p) amount); [lia | done]. }
  - destruct (Z.geb_spec (quantity p) amount); split; (done || lia).
  - intros p' H.
    destruct (Z.geb_spec (quantity p) amount); simplify_eq/=. lia.
  - intros Hq. simpl.
    destruct (Z.geb_spec (quantity p + amount) amount); [|lia].
    f_equal. destruct p. unfold set_quantity. simpl. f_equal. lia.
Qed.

Lemma reduceQuantity_never_negative_witness :
  reduceQuantity 3 (addQuantity 3 Sample.widget) = Some Sample.widget.
Proof.
  apply (reduceQuantity_never_negative 3 Sample.widget). simpl. lia.
Defined.

End ProductStock.

(** ** Categories *)

Section Categories.

Import Category.

(** X17. The counter of a category never becomes negative under
    [incrementCount] and [decrementCount], [decrementCount] leaves a counter
    of 0 at 0, and a decrement undoes an increment. *)
Theorem category_counts_not_negative (c : t) :
  0 ≤ counts c →
  0 ≤ counts (incrementCount c) ∧
  0 ≤ counts (decrementCount c) ∧
  (counts c = 0 → decrementCount c = c) ∧
  decrementCount (incrementCount c) = c.
Proof.
  intros Hc. unfold incrementCount, decrementCount.
  split; [|split; [|split]].
  - simpl. lia.
  - destruct (Z.gtb_spec (counts c) 0); simpl; lia.
  - by intros ->.
  - simpl. destruct (Z.gtb_spec (counts c + 1) 0); [|lia].
    destruct c. unfold set_counts. simpl. f_equal. lia.
Qed.

Lemma category_counts_not_negative_witness :
  decrementCount (incrementCount (mk "Tea" "" "" "" 0 true None))
  = mk "Tea" "" "" "" 0 true None.
Proof.
  apply (category_counts_not_negative (mk "Tea" "" "" "" 0 true None)).
  simpl. lia.
Defined.

(** X18. [deleteCategory] refuses a category that counts products (400) and
    a missing one (404) and then changes nothing; a category that counts
    none is removed, the other categories stay, and its logo is handed to
    [deleteImage] exactly when it has one. *)
Theorem deleteCategory_outcome (id : ObjectId) (st : State) :
  let result := deleteCategory id st in
  (categories st !! id = None →
     result = (Http.failure 404 CategoryNotFound, st)) ∧
  (∀ category, categories st !! id = Some category →
     (0 < counts category → result = (Http.failure 400 HasProducts, st)) ∧
     (counts category ≤ 0 →
        result.1 = Http.ok CategoryDeleted ∧
        categories result.2 !! id = None ∧
        (∀ other, other ≠ id →
           categories result.2 !! other = categories st !! other) ∧
        deleted_images result.2
        = if bool_decide (logo_public_id category = "")
          then deleted_images st
          else deleted_images st ++ [logo_public_id category])).
Proof.
  unfold deleteCategory. simpl. split.
  - by intros ->.
  - intros category ->. split; intros Hc.
    + by destruct (Z.gtb_spec (counts category) 0); [|lia].
    + destruct (Z.gtb_spec (counts category) 0); [lia|]. simpl.
      split; [done|]. split; [apply lookup_delete_eq|]. split.
      * intros other Hne. by apply lookup_delete_ne.
      * destruct (decide (logo_public_id category = "")) as [E|E].
        -- rewrite bool_decide_eq_false_2 by (intros ?; done).
           by rewrite bool_decide_eq_true_2.
        -- rewrite bool_decide_eq_true_2 by done.
           by rewrite bool_decide_eq_false_2.
Qed.

End Categories.

(** ** Images of a product *)

Section ProductImages.

Import ProductImage.

Lemma save_lookup (image_id i : ObjectId) (modified : bool) (img : t)
    (images : gmap ObjectId t) :
  ProductImageController.save image_id modified img images !! i
  = if decide (image_id = i) then Some img
    else if is_primary img && modified
    then (λ other, if bool_decide (product_id other = product_id img)
                   then set_is_primary false other else other)
         <$> images !! i
    else images !! i.
Proof.
  unfold ProductImageController.save.
  destruct (decide (image_id = i)) as [->|Hne];
    [by rewrite lookup_insert_eq|].
  rewrite lookup_insert_ne by done.
  destruct (is_primary img && modified); [|done].
  rewrite map_lookup_imap. destruct (images !! i) as [other|]; [|done].
  simpl. f_equal.
  destruct (decide (product_id other = product_id img)) as [Hp|Hp].
  - rewrite bool_decide_eq_true_2 by done.
    by rewrite bool_decide_eq_true_2.
  - rewrite bool_decide_eq_false_2 by (intros [? _]; done).
    by rewrite bool_decide_eq_false_2.
Qed.

(** X19. When [updateProductImage] sets [is_primary] on an image of the
    product that did not carry it, the saved image is the only image of the
    product that carries the flag; the images of other products are left as
    they are. *)
Theorem updateProductImage_makes_primary (products : gmap ObjectId Product.t)
    (productId image_id : ObjectId) (is_active' : option bool)
    (order' : option Z) (images : gmap ObjectId t) (p : Product.t)
    (image : t) :
  products !! productId = Some p →
  images !! image_id = Some image →
  product_id image = productId →
  is_primary image = false →
  ∃ images',
    ProductImageController.updateProductImage products productId image_id
      is_active' (Some true) order' images
    = (Http.ok ProductImageController.ImageUpdated, images') ∧
    primary_of productId images'
    = {[ image_id :=
           ProductImageController.assign is_active' (Some true) order' image ]}
    ∧ (∀ i other, images !! i = Some other → product_id other ≠ productId →
                  images' !! i = Some other).
Proof.
  intros Hp Hi Hprod Hprim.
  unfold ProductImageController.updateProductImage, Product.findById.
  rewrite Hp, Hi. rewrite bool_decide_eq_true_2 by done.
  eexists. split; [reflexivity|].
  assert (Hmod : bool_decide
            (is_primary
               (ProductImageController.assign is_active' (Some true) order'
                  image) ≠ is_primary image) = true).
  { apply bool_decide_eq_true_2. simpl. by rewrite Hprim. }
  rewrite Hmod. split.
  - apply map_eq. intros i. apply option_eq. intros x.
    unfold primary_of. rewrite map_lookup_filter_Some, save_lookup.
    rewrite lookup_singleton_Some. simpl. split.
    + intros [Hl [Hpx Hfx]].
      destruct (decide (image_id = i)) as [->|Hne]; [by simplify_eq|].
      exfalso. destruct (images !! i) as [y|]; simplify_eq/=.
      destruct (decide (product_id y = product_id image)) as [Hy|Hy].
      * rewrite bool_decide_eq_true_2 in Hfx by done. discriminate Hfx.
      * rewrite bool_decide_eq_false_2 in Hpx by done. done.
    + intros [<- <-]. by rewrite decide_True.
  - intros i other Ho Hne. rewrite save_lookup. simpl.
    destruct (decide (image_id = i)) as [->|_]; [by simplify_eq|].
    rewrite Ho. simpl. rewrite bool_decide_eq_false_2; [done|].
    by rewrite Hprod.
Qed.

Lemma updateProductImage_makes_primary_witness :
  ∃ images',
    ProductImageController.updateProductImage Sample.products 10%nat 3%nat
      None (Some true) None Sample.images
    = (Http.ok ProductImageController.ImageUpdated, images') ∧
    primary_of 10%nat images'
    = {[ 3%nat := mk 10%nat "c.png" "c" true true 2 ]}
    ∧ (∀ i other, Sample.images !! i = Some other →
                  product_id other ≠ 10%nat → images' !! i = Some other).
Proof.
  apply (updateProductImage_makes_primary Sample.products 10%nat 3%nat None
           None Sample.images Sample.widget
           (mk 10%nat "c.png" "c" true false 2)); reflexivity.
Defined.

(** X20. The controller [setPrimaryImage] either fails and leaves the images
    as they are, or succeeds for an active image of the product; then, of
    the images of the product, exactly the designated one carries the flag,
    and the images of other products are left as they are. *)
Theorem setPrimaryImage_controller_outcome
    (products : gmap ObjectId Product.t) (productId image_id : ObjectId)
    (images : gmap ObjectId t) :
  let result :=
    setPrimaryImage_controller products productId image_id images in
  (Http.success result.1 = false → result.2 = images) ∧
  (Http.success result.1 = true →
     (∃ image, images !! image_id = Some image ∧
               product_id image = productId ∧ is_active image = true) ∧
     (∀ i img, result.2 !! i = Some img → product_id img = productId →
               (is_primary img = true ↔ i = image_id)) ∧
     (∀ i img, images !! i = Some img → product_id img ≠ productId →
               result.2 !! i = Some img)).
Proof.
  unfold setPrimaryImage_controller. cbv zeta.
  destruct (Product.findById products productId); [|done].
  destruct (images !! image_id) as [image|] eqn:Hi; [|done].
  destruct (decide (product_id image = productId)) as [Hp|Hp].
  2: { by rewrite bool_decide_eq_false_2. }
  rewrite bool_decide_eq_true_2 by done.
  destruct (is_active image) eqn:Ha; [|done]. cbn [negb fst snd].
  split; [done|]. intros _. split; [by exists image|]. split.
  - intros i img Hl Himg. rewrite setPrimaryImage_lookup in Hl.
    destruct (images !! i) as [y|] eqn:Hy; simplify_eq/=.
    destruct (decide (image_id = i)) as [->|Hne]; [done|].
    destruct (decide (product_id y = product_id image)) as [E|E].
    + rewrite bool_decide_eq_true_2 by done. simpl. split; [done | congruence].
    + rewrite bool_decide_eq_false_2 in Himg by done. done.
  - intros i img Hl Hne. rewrite setPrimaryImage_lookup, Hl. simpl.
    rewrite bool_decide_eq_false_2 by done.
    destruct (decide (image_id = i)) as [->|_]; [by simplify_eq|done].
Qed.

End ProductImages.

(** ** The gallery of a blog *)

Section BlogGallery.

Import Blog.

Example publicId_of_url :
  publicId_of "https://res.cloudinary.com/demo/blogs/gallery/abc123.jpg"
  = "abc123".
Proof. reflexivity. Qed.

(** X21. [removeFromGallery] never empties a gallery: it refuses an index
    out of range and the last image (400), changing nothing; when it
    succeeds for an index in range it removes the image at that index,
    after handing its public id to [deleteImage]. *)
Theorem removeFromGallery_outcome (index : option Z) (blog : t)
    (deleted : list string) :
  let result := removeFromGallery index (Some blog) deleted in
  (gallery blog ≠ [] →
     ∃ blog', result.1.2 = Some blog' ∧ gallery blog' ≠ []) ∧
  (Http.success result.1.1 = false →
     result.1.2 = Some blog ∧ result.2 = deleted) ∧
  (∀ i, index = Some i → Http.success result.1.1 = true →
     ∃ imageUrl blog',
       gallery blog !! Z.to_nat i = Some imageUrl ∧
       0 ≤ i ∧
       result.1.2 = Some blog' ∧
       gallery blog' = delete (Z.to_nat i) (gallery blog) ∧
       S (length (gallery blog')) = length (gallery blog) ∧
       result.2 = deleted ++ ["blogs/gallery/" +:+ publicId_of imageUrl]).
Proof.
  unfold removeFromGallery. cbv zeta.
  set (len := Z.of_nat (length (gallery blog))).
  assert (Hlen : len = Z.of_nat (length (gallery blog))) by done.
  clearbody len.
  destruct index as [i|].
  - destruct (Z.ltb_spec i 0) as [Hneg|Hpos]; simpl.
    { split; [by eexists|]. split; [done|]. intros ? ? ?; done. }
    destruct (Z.geb_spec i len) as [Hge|Hlt]; simpl.
    { split; [by eexists|]. split; [done|]. intros ? ? ?; done. }
    destruct (Z.eqb_spec len 1) as [H1|H1]; simpl.
    { split; [by eexists|]. split; [done|]. intros ? ? ?; done. }
    assert (Hi : (Z.to_nat i < length (gallery blog))%nat) by lia.
    destruct (lookup_lt_is_Some_2 _ _ Hi) as [imageUrl Hurl].
    rewrite Hurl.
    assert (Hdel : S (length (delete (Z.to_nat i) (gallery blog)))
                   = length (gallery blog)).
    { rewrite length_delete by by eexists. lia. }
    split; [|split; [done|]].
    + intros _. eexists. split; [done|]. simpl.
      intros E. rewrite E in Hdel. simpl in Hdel. lia.
    + intros k Hk _. simplify_eq. exists imageUrl. eexists.
      split; [done|]. split; [done|]. split; [reflexivity|]. by simpl.
  - simpl. destruct (Z.eqb_spec len 1) as [H1|H1]; simpl.
    { split; [by eexists|]. split; [done|]. intros ? ?; done. }
    split; [|split; [done | intros ? ?; done]].
    intros Hne. eexists. split; [done|]. simpl.
    destruct (gallery blog) as [|x [|y rest]]; simpl in *; by try lia.
Qed.

End BlogGallery.

(** ** Hyphens of a slug *)

Section SlugHyphens.

Import Slug.

Lemma kept_char_not_hyphen (c : ascii) :
  is_alnum c || is_space c = true → is_hyphen c = false.
Proof.
  destruct c as [[] [] [] [] [] [] [] []]; vm_compute; intros; congruence.
Qed.

Lemma remove_special_no_hyphen (s : string) :
  all_chars (λ c, negb (is_hyphen c)) (remove_special s) = true.
Proof.
  induction s as [|c s IH]; simpl; [done|].
  destruct (is_alnum c || is_space c) eqn:Hk; [|done].
  simpl. by rewrite (kept_char_not_hyphen c Hk), IH.
Qed.

Lemma hyphenate_no_double_hyphen (in_run : bool) (s : string) :
  all_chars (λ c, negb (is_hyphen c)) s = true →
  no_double_hyphen (hyphenate in_run s) = true ∧
  (in_run = true → starts_with_hyphen (hyphenate in_run s) = false).
Proof.
  revert in_run. induction s as [|c s IH]; intros in_run; simpl; [done|].
  intros [Hc Hs]%andb_true_iff. apply negb_true_iff in Hc.
  destruct (is_space c).
  - destruct (IH true Hs) as [Hnd Hstart]. destruct in_run; simpl.
    + by split.
    + rewrite Hnd, (Hstart eq_refl). by split.
  - destruct (IH false Hs) as [Hnd _]. simpl. rewrite Hc, Hnd. by split.
Qed.

(** X22. The base slug of a name never holds two hyphens in a row: the
    hyphens of the name are removed before each run of white space becomes
    one hyphen. *)
Theorem baseSlug_no_double_hyphen (name : string) :
  no_double_hyphen (baseSlug_of name) = true.
Proof.
  unfold baseSlug_of.
  rewrite trim_slug_chars.
  - apply hyphenate_no_double_hyphen, remove_special_no_hyphen.
  - apply hyphenate_slug_chars, remove_special_kept, toLowerCase_not_upper.
Qed.

Example baseSlug_of_hyphens : baseSlug_of "Tea - Pots -- new" = "tea-pots-new".
Proof. reflexivity. Qed.

End SlugHyphens.

(** ** The counter and the members of a group *)

Section GroupCounter.

Import Group.

(** X23. After [updateMembersCount] the counter is the number of approved
    join records, and the group has members exactly when some user is a
    member of it. *)
Theorem updateMembersCount_hasMembers (g : t) :
  members_count (updateMembersCount g) = approved_count g ∧
  joined_users (updateMembersCount g) = joined_users g ∧
  (hasMembers (updateMembersCount g) = true ↔
   ∃ userId, isMember userId g = true).
Proof.
  unfold updateMembersCount, hasMembers, isMember, save, approved_count.
  simpl. split; [done|]. split; [done|]. rewrite Z.gtb_lt.
  induction (joined_users g) as [|join l IH].
  - simpl. split; [lia | by intros [? ?]].
  - rewrite filter_cons. destruct (decide (status join = approved)) as [Hs|Hs].
    + simpl length. split; [|intros _; lia].
      intros _. exists (user_id join). simpl.
      by rewrite !bool_decide_eq_true_2.
    + rewrite IH. split; intros [userId Hm]; exists userId; simpl in *.
      * rewrite Hm. apply orb_true_r.
      * rewrite (bool_decide_eq_false_2 (status join = approved)) in Hm
          by done.
        by rewrite andb_false_r in Hm.
Qed.

End GroupCounter.
